(** * Financial document analyzer: job lifecycle of the API and the Celery worker

    A shallow embedding of [main.py], [worker.py] and [database.py].

    - The [analyses] table is a list of rows in insertion order, with the
      primary key [id] enforced by [db_add].
    - The filesystem is a finite map from paths to file contents.
    - The collaborators the code calls but does not define (the CrewAI crew,
      the clock, [os.remove], the broker) are oracles collected in [Env].
    - Every externally visible effect is appended to a log, so that the order
      of Store writes, engine calls, file removals and retries can be stated.

    Times are integers (microseconds); [duration_seconds] holds hundredths of
    a second, the two decimals that [round(duration, 2)] keeps.  Commits to
    the database are taken to succeed unless the primary key is violated. *)

From stdpp Require Import gmap strings list fin_maps sorting.
From Stdlib Require Import ZArith Ascii Permutation Sorted.

Open Scope Z_scope.

(** ** Strings: [str.lower], [str.endswith], [str.strip]

    Strings are byte strings, text being in UTF-8.  [lower] acts on the
    ASCII letters, which is all that a comparison with [".pdf"] can see. *)

Definition lower_ascii (c : ascii) : ascii :=
  let n := nat_of_ascii c in
  if ((65 <=? n)%nat && (n <=? 90)%nat)%bool then ascii_of_nat (n + 32) else c.

Fixpoint lower (s : string) : string :=
  match s with
  | EmptyString => EmptyString
  | String c s' => String (lower_ascii c) (lower s')
  end.

Fixpoint startswith (p s : string) : bool :=
  match p, s with
  | EmptyString, _ => true
  | String a p', String b s' => if Ascii.eqb a b then startswith p' s' else false
  | String _ _, EmptyString => false
  end.

Definition endswith (s suffix : string) : bool :=
  startswith (String.rev suffix) (String.rev s).

(** The white space [str.strip()] removes.  On the ASCII range these are the
    characters 9 to 13 and 28 to 32; beyond it, in the UTF-8 form of the
    string, the two bytes of U+0085 and U+00A0 and the three bytes of U+1680,
    U+2000 to U+200A, U+2028, U+2029, U+202F, U+205F and U+3000. *)
Definition is_space (c : ascii) : bool :=
  let n := nat_of_ascii c in
  (((9 <=? n)%nat && (n <=? 13)%nat) || ((28 <=? n)%nat && (n <=? 32)%nat))%bool.

Definition space2 (c0 c1 : ascii) : bool :=
  Ascii.eqb c0 "194"%char
  && (Ascii.eqb c1 "133"%char || Ascii.eqb c1 "160"%char).

Definition space3 (c0 c1 c2 : ascii) : bool :=
  (Ascii.eqb c0 "225"%char && Ascii.eqb c1 "154"%char && Ascii.eqb c2 "128"%char)
  || (Ascii.eqb c0 "226"%char && Ascii.eqb c1 "128"%char
      && (((128 <=? nat_of_ascii c2)%nat && (nat_of_ascii c2 <=? 138)%nat)
          || Ascii.eqb c2 "168"%char || Ascii.eqb c2 "169"%char
          || Ascii.eqb c2 "175"%char))
  || (Ascii.eqb c0 "226"%char && Ascii.eqb c1 "129"%char && Ascii.eqb c2 "159"%char)
  || (Ascii.eqb c0 "227"%char && Ascii.eqb c1 "128"%char && Ascii.eqb c2 "128"%char).

(** The number of bytes of the white-space character a string begins with,
    0 when it begins with none. *)
Definition space_len (s : string) : nat :=
  match s with
  | EmptyString => 0
  | String c0 s1 =>
      if is_space c0 then 1
      else match s1 with
           | EmptyString => 0
           | String c1 s2 =>
               if space2 c0 c1 then 2
               else match s2 with
                    | EmptyString => 0
                    | String c2 _ => if space3 c0 c1 c2 then 3 else 0
                    end
           end
  end.

(** The same for the character a string ends with, read off the reversed
    string. *)
Definition space_len_rev (t : string) : nat :=
  match t with
  | EmptyString => 0
  | String c0 t1 =>
      if is_space c0 then 1
      else match t1 with
           | EmptyString => 0
           | String c1 t2 =>
               if space2 c1 c0 then 2
               else match t2 with
                    | EmptyString => 0
                    | String c2 _ => if space3 c2 c1 c0 then 3 else 0
                    end
           end
  end.

(** Drop leading characters as long as [len] finds one; [skip] counts the
    bytes of the character being dropped that are still to be passed. *)
Fixpoint strip_from (len : string -> nat) (skip : nat) (s : string) : string :=
  match s with
  | EmptyString => EmptyString
  | String _ s' =>
      match skip with
      | S k => strip_from len k s'
      | O =>
          match len s with
          | O => s
          | S k => strip_from len k s'
          end
      end
  end.

Definition lstrip (s : string) : string := strip_from space_len 0 s.

Definition rstrip (s : string) : string :=
  String.rev (strip_from space_len_rev 0 (String.rev s)).

Definition strip (s : string) : string := rstrip (lstrip s).

Definition DEFAULT_QUERY : string :=
  "Analyze this financial document for investment insights".

(** [if not query or query.strip() == "": query = default], then
    [query = query.strip()]. *)
Definition normalize_query (query : string) : string :=
  let q := if String.eqb query "" || String.eqb (strip query) "" then DEFAULT_QUERY
           else query in
  strip q.

Definition is_pdf (filename : string) : bool := endswith (lower filename) ".pdf".

Definition file_path_of (task_id : string) : string :=
  "data/financial_document_" +:+ task_id +:+ ".pdf".

(** ** database.py: [AnalysisRecord] *)

Inductive Status := queued | processing | completed | failed.

Definition status_str (s : Status) : string :=
  match s with
  | queued => "queued"
  | processing => "processing"
  | completed => "completed"
  | failed => "failed"
  end.

Global Instance Status_eq_dec : EqDecision Status.
Proof. solve_decision. Defined.

Record AnalysisRecord := mkRecord {
  id : string;
  filename : string;
  query : string;
  status : Status;
  result : option string;
  error : option string;
  created_at : Z;
  completed_at : option Z;
  duration_seconds : option Z;
}.

Definition set_status (s : Status) (r : AnalysisRecord) : AnalysisRecord :=
  mkRecord (id r) (filename r) (query r) s (result r) (error r)
           (created_at r) (completed_at r) (duration_seconds r).
Definition set_result (v : string) (r : AnalysisRecord) : AnalysisRecord :=
  mkRecord (id r) (filename r) (query r) (status r) (Some v) (error r)
           (created_at r) (completed_at r) (duration_seconds r).
Definition set_error (v : string) (r : AnalysisRecord) : AnalysisRecord :=
  mkRecord (id r) (filename r) (query r) (status r) (result r) (Some v)
           (created_at r) (completed_at r) (duration_seconds r).
Definition set_completed_at (t : Z) (r : AnalysisRecord) : AnalysisRecord :=
  mkRecord (id r) (filename r) (query r) (status r) (result r) (error r)
           (created_at r) (Some t) (duration_seconds r).
Definition set_duration_seconds (d : Z) (r : AnalysisRecord) : AnalysisRecord :=
  mkRecord (id r) (filename r) (query r) (status r) (result r) (error r)
           (created_at r) (completed_at r) (Some d).

(** The attribute assignments the handlers make before a commit. *)
Definition mark_completed (duration t : Z) (res : string) (r : AnalysisRecord)
    : AnalysisRecord :=
  set_duration_seconds duration (set_completed_at t (set_result res (set_status completed r))).
Definition mark_failed (duration t : Z) (exc : string) (r : AnalysisRecord)
    : AnalysisRecord :=
  set_duration_seconds duration (set_completed_at t (set_error exc (set_status failed r))).
(** [main.py], lines 128-130: no [duration_seconds] assignment. *)
Definition mark_failed_sync (t : Z) (exc : string) (r : AnalysisRecord)
    : AnalysisRecord :=
  set_completed_at t (set_error exc (set_status failed r)).

(** The table: rows in insertion order. *)
Definition Store := list AnalysisRecord.

(** [db.query(AnalysisRecord).filter(AnalysisRecord.id == task_id).first()] *)
Fixpoint db_get (task_id : string) (s : Store) : option AnalysisRecord :=
  match s with
  | [] => None
  | r :: s' => if String.eqb (id r) task_id then Some r else db_get task_id s'
  end.

(** [db.add(record); db.commit()]: the primary key rejects a second row with
    the same id ([None] stands for the IntegrityError). *)
Definition db_add (r : AnalysisRecord) (s : Store) : option Store :=
  match db_get (id r) s with
  | Some _ => None
  | None => Some (s ++ [r])%list
  end.

(** Attribute assignments on a loaded row followed by [db.commit()]. *)
Fixpoint db_update (task_id : string) (f : AnalysisRecord -> AnalysisRecord)
    (s : Store) : Store :=
  match s with
  | [] => []
  | r :: s' =>
      if String.eqb (id r) task_id then f r :: s'
      else r :: db_update task_id f s'
  end.

(** ** The world the handlers and the worker act on *)

(** A message on the broker: the arguments of [analyze_document_task], the
    number of retries already made ([self.request.retries]) and the delay
    before delivery. *)
Record Delivery := mkDelivery {
  d_task_id : string;
  d_query : string;
  d_file_path : string;
  d_retries : nat;
  d_countdown : Z;
}.

Inductive Event :=
  | EvWriteFile (path : string)
  | EvCommit (r : AnalysisRecord)
  | EvKickoff (query path : string)
  | EvEnqueue (d : Delivery)
  | EvRetry (d : Delivery)
  | EvRemove (path : string) (ok : bool).

Record World := mkWorld {
  store : Store;
  fs : gmap string string;
  queue : list Delivery;
  ticks : nat;
  log : list Event;
}.

Definition set_store (s : Store) (w : World) : World :=
  mkWorld s (fs w) (queue w) (ticks w) (log w).
Definition set_fs (f : gmap string string) (w : World) : World :=
  mkWorld (store w) f (queue w) (ticks w) (log w).
Definition set_queue (q : list Delivery) (w : World) : World :=
  mkWorld (store w) (fs w) q (ticks w) (log w).
Definition emit (ev : Event) (w : World) : World :=
  mkWorld (store w) (fs w) (queue w) (ticks w) (log w ++ [ev])%list.

(** What the code asks of its surroundings.  An exception is represented by
    its message, [str(e)]. *)
Record Env := mkEnv {
  uuid4 : string;                                (* the id drawn for this request *)
  clock : nat -> Z;                              (* successive readings of the clock *)
  write_err : option string;                     (* [open] of the upload target raises *)
  worker_importable : bool;                      (* [from worker import ...] succeeds *)
  broker_err : option string;                    (* [apply_async] raises *)
  kickoff : string -> nat -> string + string;    (* crew run of a job, per attempt *)
  remove_ok : string -> nat -> bool;             (* [os.remove] of a job's file, per attempt *)
  round2 : Z -> Z;                               (* [round(duration, 2)], see below *)
}.

(** [datetime.utcnow()] / [time.time()] *)
Definition now (e : Env) (w : World) : Z * World :=
  (clock e (ticks w),
   mkWorld (store w) (fs w) (queue w) (S (ticks w)) (log w)).

(** [round(duration, 2)] rounds a binary float, which is not modelled: the
    hundredths of a second it gives for a duration in microseconds are left
    to the surroundings ([round2] of [Env]).  The examples use rounding to
    the nearest hundredth, ties to even. *)
Definition round_half_even (d : Z) : Z :=
  let q := d / 10000 in
  let r := d mod 10000 in
  if r <? 5000 then q
  else if 5000 <? r then q + 1
  else if Z.even q then q else q + 1.

Definition write_file (path content : string) (w : World) : World :=
  emit (EvWriteFile path) (set_fs (<[path := content]> (fs w)) w).

(** Assignments to the attributes of the row [task_id], then [db.commit()]. *)
Definition commit_update (task_id : string)
    (f : AnalysisRecord -> AnalysisRecord) (w : World) : World :=
  match db_get task_id (store w) with
  | Some r => emit (EvCommit (f r)) (set_store (db_update task_id f (store w)) w)
  | None => w
  end.

(** The [finally] block shared by the sync endpoint and the worker:
    [if os.path.exists(p): try: os.remove(p) except Exception: pass]. *)
Definition cleanup (e : Env) (task_id : string) (attempt : nat)
    (path : string) (w : World) : World :=
  match fs w !! path with
  | None => w
  | Some _ =>
      if remove_ok e task_id attempt
      then emit (EvRemove path true) (set_fs (delete path (fs w)) w)
      else emit (EvRemove path false) w
  end.

Definition INTEGRITY_ERROR : string := "UNIQUE constraint failed: analyses.id".

Definition PENDING_ROLLBACK_ERROR : string :=
  "This Session's transaction has been rolled back due to a previous exception during flush.".

(** What the [try] block of [analyze_document] can raise: any exception, or
    the refusal of the insert by [db.commit()], after which the session
    answers no query until it is rolled back. *)
Inductive TryError :=
  | Raised (exc : string)
  | InsertRefused (exc : string).

(** ** main.py *)

Inductive Response :=
  | SyncSuccess (task_id query analysis file_processed : string)
                (duration_seconds : Z)
  | AsyncQueued (task_id message status_url : string)
  | HTTPException (status_code : Z) (detail : string)
  | Unhandled (exc : string).

(** The [try] block of [analyze_document]: [inr err] when it raises.
    ([os.makedirs("data", exist_ok=True)] has no effect that is modelled.) *)
Definition sync_try (e : Env) (task_id file_path file_name content query : string)
    (w : World) : (Response + TryError) * World :=
  match write_err e with
  | Some exc => (inr (Raised exc), w)
  | None =>
      let w := write_file file_path content w in
      let query := normalize_query query in
      let '(start_time, w) := now e w in
      let '(t_created, w) := now e w in
      let record :=
        mkRecord task_id file_name query processing None None t_created None None in
      match db_add record (store w) with
      | None => (inr (InsertRefused INTEGRITY_ERROR), w)
      | Some s =>
          let w := emit (EvCommit record) (set_store s w) in
          let w := emit (EvKickoff query file_path) w in
          match kickoff e task_id 0 with
          | inr exc => (inr (Raised exc), w)
          | inl res =>
              let '(t_done, w) := now e w in
              let duration := t_done - start_time in
              let w :=
                commit_update task_id
                  (mark_completed (round2 e duration) t_done res) w in
              (inl (SyncSuccess task_id query res file_name (round2 e duration)), w)
          end
      end
  end.

(** The [except Exception as e] block of [analyze_document].  After a
    refused insert its own query raises, and that exception leaves the
    handler in place of the [HTTPException]. *)
Definition sync_except (e : Env) (task_id : string) (err : TryError) (w : World)
    : Response * World :=
  match err with
  | InsertRefused _ => (Unhandled PENDING_ROLLBACK_ERROR, w)
  | Raised exc =>
      let w :=
        match db_get task_id (store w) with
        | Some _ =>
            let '(t, w) := now e w in
            commit_update task_id (mark_failed_sync t exc) w
        | None => w
        end in
      (HTTPException 500 ("Error processing document: " +:+ exc), w)
  end.

(** [POST /analyze] *)
Definition analyze_document (e : Env) (file_name content query : string)
    (w : World) : Response * World :=
  if negb (is_pdf file_name)
  then (HTTPException 400 "Only PDF files are supported.", w)
  else
    let task_id := uuid4 e in
    let file_path := file_path_of task_id in
    let '(r, w) := sync_try e task_id file_path file_name content query w in
    let '(resp, w) :=
      match r with
      | inl resp => (resp, w)
      | inr exc => sync_except e task_id exc w
      end in
    (resp, cleanup e task_id 0 file_path w).

(** [POST /analyze/async] *)
Definition analyze_document_async (e : Env) (file_name content query : string)
    (w : World) : Response * World :=
  if negb (worker_importable e)
  then (HTTPException 503
          "Queue worker unavailable. Ensure Redis is running and Celery is installed.",
        w)
  else if negb (is_pdf file_name)
  then (HTTPException 400 "Only PDF files are supported.", w)
  else
    let task_id := uuid4 e in
    let file_path := file_path_of task_id in
    match write_err e with
    | Some exc => (Unhandled exc, w)
    | None =>
        let w := write_file file_path content w in
        let query := normalize_query query in
        let '(t_created, w) := now e w in
        let record :=
          mkRecord task_id file_name query queued None None t_created None None in
        match db_add record (store w) with
        | None => (Unhandled INTEGRITY_ERROR, w)
        | Some s =>
            let w := emit (EvCommit record) (set_store s w) in
            match broker_err e with
            | Some exc => (Unhandled exc, w)
            | None =>
                let d := mkDelivery task_id query file_path 0 0 in
                let w := emit (EvEnqueue d) (set_queue (queue w ++ [d])%list w) in
                (AsyncQueued task_id
                   "Document queued for analysis. Poll /status/{task_id} for results."
                   ("/status/" +:+ task_id), w)
            end
        end
    end.

(** [GET /history]: one entry of ["records"]. *)
Record Summary := mkSummary {
  s_task_id : string;
  s_filename : string;
  s_query : string;
  s_status : string;
  s_created_at : Z;
  s_duration_seconds : option Z;
}.

Definition summary_of (r : AnalysisRecord) : Summary :=
  mkSummary (id r) (filename r) (query r) (status_str (status r))
            (created_at r) (duration_seconds r).

(** [ORDER BY created_at DESC]: an insertion sort that leaves rows of equal
    [created_at] in the order of the table. *)
Fixpoint insert_desc (r : AnalysisRecord) (l : list AnalysisRecord)
    : list AnalysisRecord :=
  match l with
  | [] => [r]
  | x :: l' =>
      if created_at x <=? created_at r then r :: x :: l'
      else x :: insert_desc r l'
  end.

Fixpoint order_by_created_at_desc (l : list AnalysisRecord) : list AnalysisRecord :=
  match l with
  | [] => []
  | r :: l' => insert_desc r (order_by_created_at_desc l')
  end.

Definition INT64_MIN : Z := - 2 ^ 63.

Definition OVERFLOW_ERROR : string :=
  "Python int too large to convert to SQLite INTEGER".

(** [LIMIT n] as SQLite (the engine of [DATABASE_URL]) runs it.  The bound is
    passed as a 64-bit integer: one below -2^63 cannot be passed ([None], the
    OverflowError); a negative one means no bound. *)
Definition sql_limit {A} (n : Z) (l : list A) : option (list A) :=
  if n <? INT64_MIN then None
  else Some (if n <? 0 then l else take (Z.to_nat n) l).

(** [if status: query_obj = query_obj.filter(AnalysisRecord.status == status)] *)
Definition status_filter (st : option string) (r : AnalysisRecord) : bool :=
  match st with
  | None => true
  | Some s => if String.eqb s "" then true else String.eqb (status_str (status r)) s
  end.

Definition history_rows (limit : Z) (st : option string) (s : Store)
    : option (list AnalysisRecord) :=
  let limit := Z.min limit 100 in
  sql_limit limit (order_by_created_at_desc (List.filter (status_filter st) s)).

(** What [GET /history] answers: the dict with ["total"] and ["records"], or
    the exception of the query. *)
Inductive HistoryReply :=
  | HistoryOk (total : Z) (records : list Summary)
  | HistoryCrash (exc : string).

Definition get_analysis_history (limit : Z) (st : option string) (s : Store)
    : HistoryReply :=
  match history_rows limit st s with
  | Some records => HistoryOk (Z.of_nat (length records)) (map summary_of records)
  | None => HistoryCrash OVERFLOW_ERROR
  end.

Definition history_records (reply : HistoryReply) : list Summary :=
  match reply with
  | HistoryOk _ records => records
  | HistoryCrash _ => []
  end.

(** ** worker.py *)

Inductive TaskOutcome :=
  | TaskReturn (status result : string)
  | TaskRetry (d : Delivery)
  | TaskRaise (exc : string).

(** Celery's [self.retry(exc=e, countdown=c, max_retries=m)] inside a worker:
    when the request has already been retried [m] times the original
    exception is re-raised; otherwise the same task is sent again with
    [retries + 1] and delay [c], and [Retry] is raised. *)
Definition celery_retry (d : Delivery) (exc : string) (countdown : Z)
    (max_retries : nat) (w : World) : TaskOutcome * World :=
  if (max_retries <? S (d_retries d))%nat
  then (TaskRaise exc, w)
  else
    let d' := mkDelivery (d_task_id d) (d_query d) (d_file_path d)
                         (S (d_retries d)) countdown in
    (TaskRetry d', emit (EvRetry d') (set_queue (queue w ++ [d'])%list w)).

(** [analyze_document_task(self, task_id, query, file_path)] *)
Definition analyze_document_task (e : Env) (d : Delivery) (w : World)
    : TaskOutcome * World :=
  let task_id := d_task_id d in
  let '(start_time, w) := now e w in
  let record := db_get task_id (store w) in
  let w :=
    match record with
    | Some _ => commit_update task_id (set_status processing) w
    | None => w
    end in
  let w := emit (EvKickoff (d_query d) (d_file_path d)) w in
  let '(out, w) :=
    match kickoff e task_id (d_retries d) with
    | inl res =>
        let '(t_end, w) := now e w in
        let duration := t_end - start_time in
        let w :=
          match record with
          | Some _ =>
              let '(t, w) := now e w in
              commit_update task_id (mark_completed (round2 e duration) t res) w
          | None => w
          end in
        (TaskReturn "completed" res, w)
    | inr exc =>
        let '(t_end, w) := now e w in
        let duration := t_end - start_time in
        let w :=
          match db_get task_id (store w) with
          | Some _ =>
              let '(t, w) := now e w in
              commit_update task_id (mark_failed (round2 e duration) t exc) w
          | None => w
          end in
        celery_retry d exc 5 2 w
    end in
  (out, cleanup e task_id (d_retries d) (d_file_path d) w).

(** The worker process: take the next delivery, run the task on it, until the
    queue is empty.  The trace pairs the world each attempt started in with
    the delivery and the attempt's outcome. *)
Fixpoint run_worker (fuel : nat) (e : Env) (w : World)
    : option (list (World * Delivery * TaskOutcome) * World) :=
  match queue w with
  | [] => Some ([], w)
  | d :: q =>
      match fuel with
      | O => None
      | S fuel' =>
          let w0 := set_queue q w in
          let '(out, w1) := analyze_document_task e d w0 in
          match run_worker fuel' e w1 with
          | Some (tr, w2) => Some ((w0, d, out) :: tr, w2)
          | None => None
          end
      end
  end.

(** ** Vocabulary of the statements *)

(** The events a run appended to the log. *)
Definition events_since (w w' : World) : list Event :=
  drop (length (log w)) (log w').

(** The rows written to the Store, in order, as they were committed. *)
Definition commits (l : list Event) : list AnalysisRecord :=
  omap (fun ev => match ev with EvCommit r => Some r | _ => None end) l.

Definition retries_sent (l : list Event) : list Delivery :=
  omap (fun ev => match ev with EvRetry d => Some d | _ => None end) l.

Definition kickoffs (l : list Event) : list (string * string) :=
  omap (fun ev => match ev with EvKickoff q p => Some (q, p) | _ => None end) l.

(** The status values written for one job. *)
Definition statuses_written (task_id : string) (l : list Event) : list Status :=
  map status (List.filter (fun r => String.eqb (id r) task_id) (commits l)).

Definition is_set {A} (o : option A) : bool :=
  match o with Some _ => true | None => false end.

(** The invariant of the data model: exactly one of result and error in a
    terminal state, neither before. *)
Definition record_inv (r : AnalysisRecord) : Prop :=
  match status r with
  | completed | failed => xorb (is_set (result r)) (is_set (error r)) = true
  | queued | processing => result r = None /\ error r = None
  end.

(** Position of a status in [queued -> processing -> {completed | failed}]. *)
Definition rank (s : Status) : nat :=
  match s with
  | queued => 0
  | processing => 1
  | completed | failed => 2
  end.

(** Every write moves the status strictly forward. *)
Fixpoint forward_only (l : list Status) : bool :=
  match l with
  | a :: (b :: _) as l' => (rank a <? rank b)%nat && forward_only l'
  | _ => true
  end.

(** The status writes of the attempts of one delivery: each attempt writes
    [processing] and then a terminal status, and only a failed attempt is
    followed by another. *)
Inductive attempts_writes : list Status -> Prop :=
  | aw_completed : attempts_writes [processing; completed]
  | aw_failed : attempts_writes [processing; failed]
  | aw_retry l : attempts_writes l -> attempts_writes (processing :: failed :: l).

(** What the [finally] block does to the filesystem and to the log. *)
Definition cleanup_fs (e : Env) (task_id : string) (attempt : nat)
    (path : string) (f : gmap string string) : gmap string string :=
  match f !! path with
  | None => f
  | Some _ => if remove_ok e task_id attempt then delete path f else f
  end.

Definition cleanup_events (e : Env) (task_id : string) (attempt : nat)
    (path : string) (f : gmap string string) : list Event :=
  match f !! path with
  | None => []
  | Some _ => [EvRemove path (remove_ok e task_id attempt)]
  end.

(** The same surroundings with another behaviour of [os.remove]. *)
Definition with_remove_ok (rm : string -> nat -> bool) (e : Env) : Env :=
  mkEnv (uuid4 e) (clock e) (write_err e) (worker_importable e) (broker_err e)
        (kickoff e) rm (round2 e).

(** The delivery [self.retry(countdown=5)] sends after a failed attempt. *)
Definition redelivery (d : Delivery) : Delivery :=
  mkDelivery (d_task_id d) (d_query d) (d_file_path d) (S (d_retries d)) 5.

(** The number of rows of the table that carry a given id. *)
Definition job_count (task_id : string) (s : Store) : nat :=
  length (List.filter (String.eqb task_id) (map id s)).

(** The attempts the worker makes for one delivery [d], from the world [w]
    in which the first of them starts (its message already taken off the
    queue) to the world the last of them leaves: the graph of [run_worker]
    on the queue [[d]]. *)
Inductive job_run (e : Env)
    : Delivery -> World -> list (World * Delivery * TaskOutcome) -> World -> Prop :=
  | jr_return d w r res w' :
      queue w = [] ->
      db_get (d_task_id d) (store w) = Some r ->
      kickoff e (d_task_id d) (d_retries d) = inl res ->
      analyze_document_task e d w = (TaskReturn "completed" res, w') ->
      job_run e d w [(w, d, TaskReturn "completed" res)] w'
  | jr_raise d w r exc w' :
      queue w = [] ->
      db_get (d_task_id d) (store w) = Some r ->
      kickoff e (d_task_id d) (d_retries d) = inr exc ->
      (2 <? S (d_retries d))%nat = true ->
      analyze_document_task e d w = (TaskRaise exc, w') ->
      job_run e d w [(w, d, TaskRaise exc)] w'
  | jr_retry d w r exc w' tr w'' :
      queue w = [] ->
      db_get (d_task_id d) (store w) = Some r ->
      kickoff e (d_task_id d) (d_retries d) = inr exc ->
      (2 <? S (d_retries d))%nat = false ->
      analyze_document_task e d w = (TaskRetry (redelivery d), w') ->
      job_run e (redelivery d) (set_queue [] w') tr w'' ->
      job_run e d w ((w, d, TaskRetry (redelivery d)) :: tr) w''.

(** ** Concrete surroundings for the examples *)

Definition clock_us (n : nat) : Z := 1000000 * Z.of_nat n.

Definition empty_world : World := mkWorld [] ∅ [] 0 [].

(** A request that draws the id ["j1"], with the given behaviour of the
    worker import, the broker, the crew and [os.remove]. *)
Definition demo_env (importable : bool) (broker : option string)
    (crew : nat -> string + string) (rm : nat -> bool) : Env :=
  mkEnv "j1" clock_us None importable broker (fun _ => crew) (fun _ => rm)
        round_half_even.

Definition crew_ok : nat -> string + string := fun _ => inl "report".
Definition crew_fails : nat -> string + string := fun _ => inr "boom".
Definition crew_fails_once : nat -> string + string :=
  fun n => match n with O => inr "boom" | S _ => inl "report" end.
Definition rm_ok : nat -> bool := fun _ => true.
Definition rm_fails : nat -> bool := fun _ => false.

Definition BROKER_DOWN : string :=
  "Error 111 connecting to localhost:6379. Connection refused.".

(** The rows a history request asks for: all of them without a status
    filter (or with the empty string), those with the given status
    otherwise. *)
Definition selected (st : option string) (s : Store) : Store :=
  match st with
  | None => s
  | Some t =>
      if String.eqb t "" then s
      else List.filter (fun r => String.eqb (status_str (status r)) t) s
  end.

(** Most recent first. *)
Definition newer_first (a b : AnalysisRecord) : Prop :=
  created_at b <= created_at a.

Definition summary_newer_first (a b : Summary) : Prop :=
  s_created_at b <= s_created_at a.

Definition job_at (task_id : string) (st : Status) (t : Z) : AnalysisRecord :=
  mkRecord task_id "report.pdf" DEFAULT_QUERY st None None t None None.

Definition three_jobs : Store :=
  [job_at "a" queued 10; job_at "b" processing 30; job_at "c" queued 20].

(** [n] rows created one after the other. *)
Fixpoint many_jobs (n : nat) : Store :=
  match n with
  | O => []
  | S n' => (many_jobs n' ++ [job_at (String (ascii_of_nat n) "") queued (Z.of_nat n)])%list
  end.

(** Every write moves the status forward, or resumes a failed job. *)
Fixpoint forward_or_retry (l : list Status) : bool :=
  match l with
  | a :: (b :: _) as l' =>
      ((rank a <? rank b)%nat
       || (if decide (a = failed /\ b = processing) then true else false))
      && forward_or_retry l'
  | _ => true
  end.

(** The redeliveries that [n] failed attempts in a row send, starting from
    the delivery [d]. *)
Fixpoint retry_chain (d : Delivery) (n : nat) : list Delivery :=
  match n with
  | O => []
  | S n' => redelivery d :: retry_chain (redelivery d) n'
  end.

(** The outcome of an attempt, read off the crew's behaviour and the number
    of retries already made. *)
Definition outcome_of (e : Env) (d : Delivery) : TaskOutcome :=
  match kickoff e (d_task_id d) (d_retries d) with
  | inl res => TaskReturn "completed" res
  | inr exc => if (2 <? S (d_retries d))%nat then TaskRaise exc
               else TaskRetry (redelivery d)
  end.

(** ** main.py: status, history detail and deletion *)

(** [db.delete(record); db.commit()] *)
Fixpoint db_delete (task_id : string) (s : Store) : Store :=
  match s with
  | [] => []
  | r :: s' => if String.eqb (id r) task_id then s' else r :: db_delete task_id s'
  end.

(** The values of a response dict.  [VTime t] stands for [t.isoformat()]. *)
Inductive Value :=
  | VStr (s : string)
  | VNum (z : Z)
  | VTime (t : Z)
  | VNull.

Definition opt_str (o : option string) : Value :=
  match o with Some s => VStr s | None => VNull end.
Definition opt_num (o : option Z) : Value :=
  match o with Some z => VNum z | None => VNull end.
Definition opt_time (o : option Z) : Value :=
  match o with Some t => VTime t | None => VNull end.

(** What a read endpoint answers: a dict, an [HTTPException], or an exception
    that leaves the handler. *)
Inductive Reply :=
  | ReplyOk (body : gmap string Value)
  | ReplyError (status_code : Z) (detail : string)
  | ReplyCrash (exc : string).

Definition ATTRIBUTE_ERROR : string :=
  "'NoneType' object has no attribute 'isoformat'".

(** [GET /status/{task_id}] *)
Definition get_task_status (task_id : string) (s : Store) : Reply :=
  match db_get task_id s with
  | None => ReplyError 404 ("Task '" +:+ task_id +:+ "' not found.")
  | Some record =>
      let response : gmap string Value :=
        <["created_at" := VTime (created_at record)]>
          (<["query" := VStr (query record)]>
             (<["filename" := VStr (filename record)]>
                (<["status" := VStr (status_str (status record))]>
                   (<["task_id" := VStr task_id]> ∅)))) in
      match status record with
      | completed =>
          match completed_at record with
          | None => ReplyCrash ATTRIBUTE_ERROR
          | Some t =>
              ReplyOk (<["duration_seconds" := opt_num (duration_seconds record)]>
                         (<["completed_at" := VTime t]>
                            (<["analysis" := opt_str (result record)]> response)))
          end
      | failed =>
          ReplyOk (<["completed_at" := opt_time (completed_at record)]>
                     (<["error" := opt_str (error record)]> response))
      | queued | processing => ReplyOk response
      end
  end.

(** [GET /history/{task_id}] *)
Definition get_analysis_by_id (task_id : string) (s : Store) : Reply :=
  match db_get task_id s with
  | None => ReplyError 404 ("Analysis '" +:+ task_id +:+ "' not found.")
  | Some record =>
      ReplyOk
        (<["duration_seconds" := opt_num (duration_seconds record)]>
           (<["completed_at" := opt_time (completed_at record)]>
              (<["created_at" := VTime (created_at record)]>
                 (<["error" := opt_str (error record)]>
                    (<["analysis" := opt_str (result record)]>
                       (<["status" := VStr (status_str (status record))]>
                          (<["query" := VStr (query record)]>
                             (<["filename" := VStr (filename record)]>
                                (<["task_id" := VStr (id record)]> ∅)))))))))
  end.

(** [DELETE /history/{task_id}] *)
Definition delete_analysis (task_id : string) (s : Store) : Reply * Store :=
  match db_get task_id s with
  | None => (ReplyError 404 ("Analysis '" +:+ task_id +:+ "' not found."), s)
  | Some _ =>
      (ReplyOk {[ "message" :=
                    VStr ("Analysis '" +:+ task_id +:+ "' deleted successfully.") ]},
       db_delete task_id s)
  end.

(** ** tools.py *)

Definition NL : string := String "010"%char EmptyString.
Definition NLNL : string := String "010"%char (String "010"%char EmptyString).
Definition SP2 : string := String " "%char (String " "%char EmptyString).

(** [sub in s] *)
Fixpoint contains (sub s : string) : bool :=
  startswith sub s
  || match s with
     | EmptyString => false
     | String _ s' => contains sub s'
     end.

(** [s.replace(old, new)] for a non-empty [old]: occurrences are taken from
    the left and do not overlap.  [skip] counts the characters of the
    occurrence just replaced that are still to be passed over. *)
Fixpoint replace_from (old new : string) (skip : nat) (s : string) : string :=
  match s with
  | EmptyString => EmptyString
  | String c s' =>
      match skip with
      | S k => replace_from old new k s'
      | O =>
          if startswith old s
          then new +:+ replace_from old new (String.length old - 1) s'
          else String c (replace_from old new 0 s')
      end
  end.

Definition replace (old new s : string) : string := replace_from old new 0 s.

(** [while "\n\n" in content: content = content.replace("\n\n", "\n")] *)
Fixpoint newline_loop (fuel : nat) (content : string) : option string :=
  if contains NLNL content
  then match fuel with
       | O => None
       | S fuel' => newline_loop fuel' (replace NLNL NL content)
       end
  else Some content.

(** The body of the [for] loop of [read_data_tool], over the page texts that
    [PyPDFLoader.load()] returned. *)
Fixpoint read_pages (docs : list string) (full_report : string) : option string :=
  match docs with
  | [] => Some full_report
  | content :: rest =>
      match newline_loop (String.length content) content with
      | Some content' => read_pages rest (full_report +:+ (content' +:+ NL))
      | None => None
      end
  end.

Definition read_data_tool (docs : list string) : option string :=
  read_pages docs "".

(** [s[:n]] and [s[n:]] *)
Fixpoint str_take (n : nat) (s : string) : string :=
  match n, s with
  | S n', String c s' => String c (str_take n' s')
  | _, _ => EmptyString
  end.

Fixpoint str_drop (n : nat) (s : string) : string :=
  match n, s with
  | S n', String _ s' => str_drop n' s'
  | _, _ => s
  end.

(** The [while i < len(processed_data)] loop of [analyze_investment_tool]. *)
Fixpoint investment_loop (fuel i : nat) (processed_data : string) : option string :=
  if (i <? String.length processed_data)%nat
  then match fuel with
       | O => None
       | S fuel' =>
           if String.eqb (str_take 2 (str_drop i processed_data)) SP2
           then investment_loop fuel' i
                  (str_take i processed_data +:+ str_drop (i + 1) processed_data)
           else investment_loop fuel' (i + 1) processed_data
       end
  else Some processed_data.

Definition analyze_investment_tool (financial_document_data : string)
    : option string :=
  investment_loop (String.length financial_document_data) 0 financial_document_data.

(** What the two loops compute: of every run of the character [c], all but
    the last are dropped. *)
Fixpoint squeeze (c : ascii) (s : string) : string :=
  match s with
  | EmptyString => EmptyString
  | String a s' =>
      if Ascii.eqb a c && startswith (String c EmptyString) s'
      then squeeze c s'
      else String a (squeeze c s')
  end.


(** The character [c] twice: ["\n\n"] and ["  "] are [double] of the newline
    and of the space. *)
Definition double (c : ascii) : string := String c (String c EmptyString).

(** The text of a report: its characters other than [c]. *)
Definition without (c : ascii) (s : string) : list ascii :=
  List.filter (fun a => negb (Ascii.eqb a c)) (String.list_ascii_of_string s).

(** The report [read_data_tool] builds from cleaned pages. *)
Definition join_pages (pages : list string) : string :=
  foldr (fun page rest => (page +:+ NL) +:+ rest) "" pages.

(** The characters of a string. *)
Definition chars (s : string) : list ascii := String.list_ascii_of_string s.

(** No white space at the front, none at the back. *)
Definition starts_clean (s : string) : Prop := space_len s = 0%nat.

Definition ends_clean (s : string) : Prop := space_len_rev (String.rev s) = 0%nat.

(** Attempts a delivery can still take: the one it is for, and the retries the
    budget of 2 leaves after it. *)
Definition attempts_left (d : Delivery) : nat := Nat.max 1 (3 - d_retries d).

Definition queue_budget (q : list Delivery) : nat :=
  foldr (fun d n => (attempts_left d + n)%nat) 0%nat q.

(** The columns no handler assigns after the row is created. *)
Definition same_job (r r' : AnalysisRecord) : Prop :=
  id r' = id r /\ filename r' = filename r /\ query r' = query r
  /\ created_at r' = created_at r.

(** * Properties *)

(** ** The table *)

Section StoreFacts.
Variable task_id : string.
Variable f : AnalysisRecord -> AnalysisRecord.
Hypothesis f_keeps_id : forall r, id (f r) = id r.

Lemma db_get_update_eq (s : Store) :
  db_get task_id (db_update task_id f s) = f <$> db_get task_id s.
Proof.
  induction s as [|r s IH]; [reflexivity|]. simpl.
  destruct (String.eqb (id r) task_id) eqn:E; simpl.
  - rewrite f_keeps_id, E. reflexivity.
  - rewrite E. exact IH.
Qed.

Lemma db_get_update_ne (j : string) (s : Store) :
  j <> task_id -> db_get j (db_update task_id f s) = db_get j s.
Proof.
  intros Hne. induction s as [|r s IH]; [reflexivity|]. simpl.
  destruct (String.eqb (id r) task_id) eqn:E; simpl.
  - rewrite f_keeps_id. apply String.eqb_eq in E.
    destruct (String.eqb (id r) j) eqn:E'; [|reflexivity].
    apply String.eqb_eq in E'. congruence.
  - destruct (String.eqb (id r) j); [reflexivity | exact IH].
Qed.

Lemma db_update_ids (s : Store) :
  map id (db_update task_id f s) = map id s.
Proof.
  induction s as [|r s IH]; [reflexivity|]. simpl.
  destruct (String.eqb (id r) task_id); simpl; congruence.
Qed.
End StoreFacts.

Lemma db_update_update (task_id : string) (f g : AnalysisRecord -> AnalysisRecord)
    (s : Store) :
  (forall r, id (f r) = id r) ->
  db_update task_id g (db_update task_id f s)
  = db_update task_id (fun r => g (f r)) s.
Proof.
  intros Hf. induction s as [|r s IH]; [reflexivity|]. simpl.
  destruct (String.eqb (id r) task_id) eqn:E; simpl.
  - rewrite Hf, E. reflexivity.
  - rewrite E, IH. reflexivity.
Qed.

Lemma db_get_app_fresh (r : AnalysisRecord) (s : Store) :
  db_get (id r) s = None -> db_get (id r) (s ++ [r]) = Some r.
Proof.
  induction s as [|x s IH]; simpl.
  - intros _. rewrite String.eqb_refl. reflexivity.
  - destruct (String.eqb (id x) (id r)); [discriminate | exact IH].
Qed.

Lemma db_get_app_other (j : string) (r : AnalysisRecord) (s : Store) :
  j <> id r -> db_get j (s ++ [r]) = db_get j s.
Proof.
  intros Hne. induction s as [|x s IH]; simpl.
  - destruct (String.eqb (id r) j) eqn:E; [|reflexivity].
    apply String.eqb_eq in E. congruence.
  - destruct (String.eqb (id x) j); [reflexivity | exact IH].
Qed.

Lemma db_get_None_not_in (j : string) (s : Store) :
  db_get j s = None <-> j ∉ map id s.
Proof.
  induction s as [|x s IH]; simpl.
  - split; [intros _; apply not_elem_of_nil | reflexivity].
  - rewrite not_elem_of_cons.
    destruct (String.eqb (id x) j) eqn:E.
    + apply String.eqb_eq in E. split; [discriminate | intros [H _]; congruence].
    + apply String.eqb_neq in E. rewrite IH. split; [intros H; split; congruence | tauto].
Qed.

(** ** The [finally] block *)

Lemma cleanup_store e i n p w : store (cleanup e i n p w) = store w.
Proof. unfold cleanup. destruct (fs w !! p); [destruct (remove_ok e i n)|]; reflexivity. Qed.

Lemma cleanup_queue e i n p w : queue (cleanup e i n p w) = queue w.
Proof. unfold cleanup. destruct (fs w !! p); [destruct (remove_ok e i n)|]; reflexivity. Qed.

Lemma cleanup_ticks e i n p w : ticks (cleanup e i n p w) = ticks w.
Proof. unfold cleanup. destruct (fs w !! p); [destruct (remove_ok e i n)|]; reflexivity. Qed.

Lemma cleanup_fs_eq e i n p w : fs (cleanup e i n p w) = cleanup_fs e i n p (fs w).
Proof.
  unfold cleanup, cleanup_fs.
  destruct (fs w !! p); [destruct (remove_ok e i n)|]; reflexivity.
Qed.

Lemma cleanup_log e i n p w :
  log (cleanup e i n p w) = (log w ++ cleanup_events e i n p (fs w))%list.
Proof.
  unfold cleanup, cleanup_events.
  destruct (fs w !! p); [destruct (remove_ok e i n)|]; simpl;
    rewrite ?app_nil_r; reflexivity.
Qed.

Lemma cleanup_fs_removed e i n p (f : gmap string string) :
  remove_ok e i n = true -> cleanup_fs e i n p f !! p = None.
Proof.
  intros Hrm. unfold cleanup_fs. destruct (f !! p) eqn:E; [|exact E].
  rewrite Hrm. apply lookup_delete_eq.
Qed.


Lemma cleanup_events_no_commit e i n p (f : gmap string string) :
  commits (cleanup_events e i n p f) = []
  /\ retries_sent (cleanup_events e i n p f) = []
  /\ kickoffs (cleanup_events e i n p f) = [].
Proof. unfold cleanup_events. destruct (f !! p); repeat split; reflexivity. Qed.

Lemma events_since_app (w w' : World) (evs : list Event) :
  log w' = (log w ++ evs)%list -> events_since w w' = evs.
Proof. intros H. unfold events_since. rewrite H. apply drop_app_length. Qed.

(** ** One attempt of the worker task *)

Section Attempt.
Variable e : Env.
Variable d : Delivery.
Variable w : World.

Let task_id := d_task_id d.
Let t0 := clock e (ticks w).
Let t1 := clock e (S (ticks w)).
Let t2 := clock e (S (S (ticks w))).

(** No row for the job: nothing is written, the crew still runs. *)
Lemma task_absent :
  db_get task_id (store w) = None ->
  let '(out, w') := analyze_document_task e d w in
  store w' = store w
  /\ fs w' = cleanup_fs e task_id (d_retries d) (d_file_path d) (fs w)
  /\ match kickoff e task_id (d_retries d) with
     | inl res =>
         out = TaskReturn "completed" res /\ queue w' = queue w
         /\ log w' = (log w ++ [EvKickoff (d_query d) (d_file_path d)]
                      ++ cleanup_events e task_id (d_retries d) (d_file_path d) (fs w))%list
     | inr exc =>
         if (2 <? S (d_retries d))%nat
         then out = TaskRaise exc /\ queue w' = queue w
              /\ log w' = (log w ++ [EvKickoff (d_query d) (d_file_path d)]
                      ++ cleanup_events e task_id (d_retries d) (d_file_path d) (fs w))%list
         else out = TaskRetry (redelivery d)
              /\ queue w' = (queue w ++ [redelivery d])%list
              /\ log w' = (log w ++ [EvKickoff (d_query d) (d_file_path d);
                                     EvRetry (redelivery d)]
                      ++ cleanup_events e task_id (d_retries d) (d_file_path d) (fs w))%list
     end.
Proof.
  intros H. unfold analyze_document_task. fold task_id. cbn -[cleanup Nat.ltb].
  rewrite H.
  destruct (kickoff e task_id (d_retries d)) as [res|exc]; cbn -[cleanup Nat.ltb].
  - rewrite cleanup_store, cleanup_fs_eq, cleanup_queue, cleanup_log. cbn.
    rewrite <- app_assoc. auto.
  - rewrite H. unfold celery_retry.
    destruct (2 <? S (d_retries d))%nat; cbn -[cleanup];
      rewrite cleanup_store, cleanup_fs_eq, cleanup_queue, cleanup_log; cbn;
      rewrite <- ?app_assoc; auto.
Qed.

Variable r : AnalysisRecord.
Hypothesis Hrow : db_get task_id (store w) = Some r.

(** The crew returns a report. *)
Lemma task_found_ok res :
  kickoff e task_id (d_retries d) = inl res ->
  let r' := mark_completed (round2 e (t1 - t0)) t2 res (set_status processing r) in
  let '(out, w') := analyze_document_task e d w in
  out = TaskReturn "completed" res
  /\ store w' = db_update task_id
                  (fun x => mark_completed (round2 e (t1 - t0)) t2 res
                              (set_status processing x)) (store w)
  /\ db_get task_id (store w') = Some r'
  /\ queue w' = queue w
  /\ ticks w' = (3 + ticks w)%nat
  /\ fs w' = cleanup_fs e task_id (d_retries d) (d_file_path d) (fs w)
  /\ log w' = (log w ++ [EvCommit (set_status processing r);
                         EvKickoff (d_query d) (d_file_path d);
                         EvCommit r']
               ++ cleanup_events e task_id (d_retries d) (d_file_path d) (fs w))%list.
Proof.
  intros Hk. unfold analyze_document_task. fold task_id. cbn -[cleanup].
  rewrite Hrow, Hk. unfold commit_update. cbn -[cleanup]. rewrite Hrow.
  cbn -[cleanup]. rewrite db_get_update_eq by reflexivity. rewrite Hrow.
  cbn -[cleanup]. rewrite db_update_update by reflexivity.
  rewrite cleanup_store, cleanup_fs_eq, cleanup_queue, cleanup_log, cleanup_ticks.
  cbn. rewrite db_get_update_eq by reflexivity. rewrite Hrow.
  rewrite <- !app_assoc. repeat split; reflexivity.
Qed.

(** The crew raises: the row is marked failed, then [self.retry] decides. *)
Lemma task_found_fail exc :
  kickoff e task_id (d_retries d) = inr exc ->
  let r' := mark_failed (round2 e (t1 - t0)) t2 exc (set_status processing r) in
  let '(out, w') := analyze_document_task e d w in
  store w' = db_update task_id
               (fun x => mark_failed (round2 e (t1 - t0)) t2 exc
                           (set_status processing x)) (store w)
  /\ db_get task_id (store w') = Some r'
  /\ ticks w' = (3 + ticks w)%nat
  /\ fs w' = cleanup_fs e task_id (d_retries d) (d_file_path d) (fs w)
  /\ if (2 <? S (d_retries d))%nat
     then out = TaskRaise exc /\ queue w' = queue w
          /\ log w' = (log w ++ [EvCommit (set_status processing r);
                                 EvKickoff (d_query d) (d_file_path d);
                                 EvCommit r']
               ++ cleanup_events e task_id (d_retries d) (d_file_path d) (fs w))%list
     else out = TaskRetry (redelivery d)
          /\ queue w' = (queue w ++ [redelivery d])%list
          /\ log w' = (log w ++ [EvCommit (set_status processing r);
                                 EvKickoff (d_query d) (d_file_path d);
                                 EvCommit r';
                                 EvRetry (redelivery d)]
               ++ cleanup_events e task_id (d_retries d) (d_file_path d) (fs w))%list.
Proof.
  intros Hk. unfold analyze_document_task. fold task_id. cbn -[cleanup Nat.ltb].
  rewrite Hrow, Hk. unfold commit_update. cbn -[cleanup Nat.ltb]. rewrite Hrow.
  cbn -[cleanup Nat.ltb]. rewrite !db_get_update_eq by reflexivity. rewrite Hrow.
  cbn -[cleanup Nat.ltb]. rewrite db_update_update by reflexivity.
  unfold celery_retry.
  destruct (2 <? S (d_retries d))%nat; cbn -[cleanup];
    rewrite cleanup_store, cleanup_fs_eq, cleanup_queue, cleanup_log, cleanup_ticks;
    cbn; rewrite db_get_update_eq by reflexivity; rewrite Hrow;
    rewrite <- !app_assoc; repeat split; reflexivity.
Qed.
End Attempt.

(** ** The attempts of one delivery *)

Lemma db_get_id (j : string) (s : Store) (r : AnalysisRecord) :
  db_get j s = Some r -> id r = j.
Proof.
  induction s as [|x s IH]; simpl; [discriminate|].
  destruct (String.eqb (id x) j) eqn:E; [|exact IH].
  intros [= <-]. apply String.eqb_eq. exact E.
Qed.

(** With a row for the job and nothing else queued, the worker comes to rest
    within the retry budget. *)
Lemma run_worker_job (e : Env) (fuel : nat) :
  forall (d : Delivery) (w : World) (r : AnalysisRecord),
    queue w = [d] ->
    db_get (d_task_id d) (store w) = Some r ->
    (3 <= fuel + d_retries d)%nat -> (1 <= fuel)%nat ->
    exists tr w2,
      run_worker fuel e w = Some (tr, w2)
      /\ queue w2 = []
      /\ job_run e d (set_queue [] w) tr w2.
Proof.
  induction fuel as [|fuel IH]; intros d w r Hq Hrow Hfuel Hpos; [lia|].
  simpl. rewrite Hq.
  pose proof (task_found_ok e d (set_queue [] w) r Hrow) as Hok.
  pose proof (task_found_fail e d (set_queue [] w) r Hrow) as Hfail.
  destruct (kickoff e (d_task_id d) (d_retries d)) as [res|exc] eqn:Hk.
  - specialize (Hok res eq_refl). cbv zeta in Hok.
    destruct (analyze_document_task e d (set_queue [] w)) as [out w1] eqn:Ht.
    destruct Hok as (-> & _ & _ & Hq1 & _).
    simpl in Hq1. destruct fuel; simpl; rewrite Hq1;
      (eexists _, _; split; [reflexivity|]; split; [exact Hq1|];
       eapply jr_return; eauto).
  - specialize (Hfail exc eq_refl). cbv zeta in Hfail.
    destruct (analyze_document_task e d (set_queue [] w)) as [out w1] eqn:Ht.
    destruct Hfail as (_ & Hrow1 & _ & _ & Hcase).
    destruct (2 <? S (d_retries d))%nat eqn:Hb.
    + destruct Hcase as (-> & Hq1 & _). simpl in Hq1.
      destruct fuel; simpl; rewrite Hq1;
        (eexists _, _; split; [reflexivity|]; split; [exact Hq1|];
         eapply jr_raise; eauto).
    + destruct Hcase as (-> & Hq1 & _). simpl in Hq1.
      pose proof Hb as Hle. apply Nat.ltb_ge in Hle.
      destruct (IH (redelivery d) w1 _ Hq1 Hrow1) as (tr & w2 & Hrun & Hq2 & Hjr);
        [simpl; lia | lia |].
      rewrite Hrun. eexists _, _. split; [reflexivity|]. split; [exact Hq2|].
      eapply jr_retry; eauto.
Qed.

(** Facts that every attempt preserves, by induction on the run. *)
Lemma job_run_log e d w tr w2 :
  job_run e d w tr w2 -> log w2 = (log w ++ events_since w w2)%list.
Proof.
  induction 1 as [d w r res w' Hq Hrow Hk Ht
                 |d w r exc w' Hq Hrow Hk Hb Ht
                 |d w r exc w' tr w'' Hq Hrow Hk Hb Ht Hrun IH].
  - pose proof (task_found_ok e d w r Hrow res Hk) as H. cbv zeta in H.
    rewrite Ht in H. destruct H as (_ & _ & _ & _ & _ & _ & Hlog).
    rewrite (events_since_app _ _ _ Hlog). exact Hlog.
  - pose proof (task_found_fail e d w r Hrow exc Hk) as H. cbv zeta in H.
    rewrite Ht, Hb in H. destruct H as (_ & _ & _ & _ & _ & _ & Hlog).
    rewrite (events_since_app _ _ _ Hlog). exact Hlog.
  - pose proof (task_found_fail e d w r Hrow exc Hk) as H. cbv zeta in H.
    rewrite Ht, Hb in H. destruct H as (_ & _ & _ & _ & _ & _ & Hlog).
    simpl in IH. rewrite Hlog in IH.
    rewrite <- app_assoc in IH.
    rewrite (events_since_app _ _ _ IH). exact IH.
Qed.

Lemma events_since_step (w w1 w2 : World) (evs : list Event) :
  log w1 = (log w ++ evs)%list ->
  log w2 = (log w1 ++ events_since w1 w2)%list ->
  events_since w w2 = (evs ++ events_since w1 w2)%list.
Proof.
  intros H1 H2. apply events_since_app. rewrite H2, H1, app_assoc. reflexivity.
Qed.

Lemma job_run_ids e d w tr w2 :
  job_run e d w tr w2 -> map id (store w2) = map id (store w).
Proof.
  induction 1 as [d w r res w' Hq Hrow Hk Ht
                 |d w r exc w' Hq Hrow Hk Hb Ht
                 |d w r exc w' tr w'' Hq Hrow Hk Hb Ht Hrun IH].
  - pose proof (task_found_ok e d w r Hrow res Hk) as H. cbv zeta in H.
    rewrite Ht in H. destruct H as (_ & -> & _).
    apply db_update_ids. reflexivity.
  - pose proof (task_found_fail e d w r Hrow exc Hk) as H. cbv zeta in H.
    rewrite Ht in H. destruct H as (-> & _).
    apply db_update_ids. reflexivity.
  - pose proof (task_found_fail e d w r Hrow exc Hk) as H. cbv zeta in H.
    rewrite Ht in H. destruct H as (Hst & _).
    rewrite IH. simpl. rewrite Hst. apply db_update_ids. reflexivity.
Qed.

(** ** The endpoints on a fresh id *)

Lemma db_update_app_fresh (f : AnalysisRecord -> AnalysisRecord)
    (r : AnalysisRecord) (s : Store) :
  db_get (id r) s = None ->
  db_update (id r) f (s ++ [r]) = (s ++ [f r])%list.
Proof.
  induction s as [|x s IH]; simpl.
  - intros _. rewrite String.eqb_refl. reflexivity.
  - destruct (String.eqb (id x) (id r)); [discriminate|].
    intros H. rewrite (IH H). reflexivity.
Qed.

Section SyncEndpoint.
Variable e : Env.
Variables file_name content qry : string.
Variable w : World.

Let task_id := uuid4 e.
Let path := file_path_of task_id.
Let q := normalize_query qry.
Let t := ticks w.
Let row := mkRecord task_id file_name q processing None None
                    (clock e (S t)) None None.

Lemma sync_fresh :
  is_pdf file_name = true ->
  db_get task_id (store w) = None ->
  let '(resp, w') := analyze_document e file_name content qry w in
  queue w' = queue w /\
  match write_err e with
  | Some exc =>
      resp = HTTPException 500 ("Error processing document: " +:+ exc)
      /\ store w' = store w
      /\ fs w' = cleanup_fs e task_id 0 path (fs w)
      /\ log w' = (log w ++ cleanup_events e task_id 0 path (fs w))%list
  | None =>
      fs w' = cleanup_fs e task_id 0 path (<[path := content]> (fs w))
      /\ match kickoff e task_id 0 with
         | inl res =>
             let dur := round2 e (clock e (S (S t)) - clock e t) in
             let row' := mark_completed dur (clock e (S (S t))) res row in
             resp = SyncSuccess task_id q res file_name dur
             /\ store w' = (store w ++ [row'])%list
             /\ log w' = (log w ++ [EvWriteFile path; EvCommit row;
                                    EvKickoff q path; EvCommit row']
                          ++ cleanup_events e task_id 0 path
                               (<[path := content]> (fs w)))%list
         | inr exc =>
             let row' := mark_failed_sync (clock e (S (S t))) exc row in
             resp = HTTPException 500 ("Error processing document: " +:+ exc)
             /\ store w' = (store w ++ [row'])%list
             /\ log w' = (log w ++ [EvWriteFile path; EvCommit row;
                                    EvKickoff q path; EvCommit row']
                          ++ cleanup_events e task_id 0 path
                               (<[path := content]> (fs w)))%list
         end
  end.
Proof.
  intros Hpdf Hfresh. unfold analyze_document, sync_try, sync_except.
  rewrite Hpdf. fold task_id path q. cbn -[cleanup].
  destruct (write_err e) as [exc|]; cbn -[cleanup].
  - rewrite Hfresh.
    rewrite cleanup_store, cleanup_fs_eq, cleanup_queue, cleanup_log. auto.
  - unfold db_add. cbn -[cleanup]. rewrite Hfresh.
    assert (Hget : db_get task_id (store w ++ [row]) = Some row)
      by exact (db_get_app_fresh row _ Hfresh).
    assert (Hupd : forall f, db_update task_id f (store w ++ [row])
                             = (store w ++ [f row])%list)
      by (intros f; exact (db_update_app_fresh f row _ Hfresh)).
    unfold row, t in Hget, Hupd.
    destruct (kickoff e task_id 0) as [res|exc]; cbn -[cleanup];
      unfold commit_update; cbn -[cleanup]; rewrite ?Hget;
      cbn -[cleanup]; rewrite ?Hget; cbn -[cleanup];
      rewrite cleanup_store, cleanup_fs_eq, cleanup_queue, cleanup_log; cbn;
      rewrite Hupd; rewrite <- !app_assoc; auto.
Qed.

Lemma async_fresh :
  worker_importable e = true ->
  is_pdf file_name = true ->
  write_err e = None ->
  db_get task_id (store w) = None ->
  let row := mkRecord task_id file_name q queued None None
                      (clock e t) None None in
  let d := mkDelivery task_id q path 0 0 in
  let '(resp, w') := analyze_document_async e file_name content qry w in
  store w' = (store w ++ [row])%list
  /\ fs w' = <[path := content]> (fs w)
  /\ match broker_err e with
     | Some exc =>
         resp = Unhandled exc /\ queue w' = queue w
         /\ log w' = (log w ++ [EvWriteFile path; EvCommit row])%list
     | None =>
         resp = AsyncQueued task_id
                  "Document queued for analysis. Poll /status/{task_id} for results."
                  ("/status/" +:+ task_id)
         /\ queue w' = (queue w ++ [d])%list
         /\ log w' = (log w ++ [EvWriteFile path; EvCommit row; EvEnqueue d])%list
     end.
Proof.
  intros Himp Hpdf Hwr Hfresh. unfold analyze_document_async.
  rewrite Himp, Hpdf, Hwr. fold task_id path q. cbn.
  unfold db_add. cbn. rewrite Hfresh.
  destruct (broker_err e); cbn; rewrite <- ?app_assoc; auto.
Qed.

(** The outcome of the sync endpoint does not depend on [os.remove]. *)
Lemma sync_split :
  is_pdf file_name = true ->
  exists resp pre,
    forall rm,
      analyze_document (with_remove_ok rm e) file_name content qry w
      = (resp, cleanup (with_remove_ok rm e) task_id 0 path pre).
Proof.
  intros Hpdf. unfold analyze_document. rewrite Hpdf. cbn -[cleanup sync_try sync_except].
  fold task_id path.
  destruct (sync_try e task_id path file_name content qry w) as [[resp|exc] w1] eqn:Ht.
  - exists resp, w1. intros rm.
    change (sync_try (with_remove_ok rm e) task_id path file_name content qry w)
      with (sync_try e task_id path file_name content qry w).
    rewrite Ht. reflexivity.
  - destruct (sync_except e task_id exc w1) as [resp w2] eqn:Hx.
    exists resp, w2. intros rm.
    change (sync_try (with_remove_ok rm e) task_id path file_name content qry w)
      with (sync_try e task_id path file_name content qry w).
    rewrite Ht.
    change (sync_except (with_remove_ok rm e) task_id exc w1)
      with (sync_except e task_id exc w1).
    rewrite Hx. reflexivity.
Qed.
End SyncEndpoint.

(** The outcome of the worker task does not depend on [os.remove] either. *)
Lemma task_split (e : Env) (d : Delivery) (w : World) :
  exists out pre,
    forall rm,
      analyze_document_task (with_remove_ok rm e) d w
      = (out, cleanup (with_remove_ok rm e) (d_task_id d) (d_retries d)
                      (d_file_path d) pre).
Proof.
  unfold analyze_document_task. cbn -[cleanup celery_retry commit_update].
  destruct (db_get (d_task_id d) (store w)) as [r|] eqn:Hrow;
    destruct (kickoff e (d_task_id d) (d_retries d)) as [res|exc];
    cbn -[cleanup celery_retry commit_update].
  - eexists _, _. intros rm. reflexivity.
  - match goal with
    | |- context [celery_retry ?a ?b ?c ?n ?x] =>
        destruct (celery_retry a b c n x) as [out w1] eqn:Hr
    end.
    exists out, w1. intros rm. reflexivity.
  - eexists _, _. intros rm. reflexivity.
  - match goal with
    | |- context [celery_retry ?a ?b ?c ?n ?x] =>
        destruct (celery_retry a b c n x) as [out w1] eqn:Hr
    end.
    exists out, w1. intros rm. reflexivity.
Qed.

Lemma with_remove_ok_same (e : Env) :
  with_remove_ok (remove_ok e) e = e.
Proof. destruct e. reflexivity. Qed.

(** * The claims *)

(** ** C1: async submission when the queue cannot accept work *)

(** The guard the endpoint does have: a worker module that cannot be
    imported is answered with 503 before anything is written. *)
Lemma async_import_failure (e : Env) (file_name content qry : string) (w : World) :
  worker_importable e = false ->
  analyze_document_async e file_name content qry w
  = (HTTPException 503
       "Queue worker unavailable. Ensure Redis is running and Celery is installed.",
     w).
Proof. intros H. unfold analyze_document_async. rewrite H. reflexivity. Qed.

(** A broker that refuses the message is met after the row is committed. *)
Lemma async_enqueue_failure (e : Env) (file_name content qry exc : string)
    (w : World) :
  worker_importable e = true ->
  is_pdf file_name = true ->
  write_err e = None ->
  db_get (uuid4 e) (store w) = None ->
  broker_err e = Some exc ->
  let '(resp, w') := analyze_document_async e file_name content qry w in
  resp = Unhandled exc
  /\ queue w' = queue w
  /\ exists r, db_get (uuid4 e) (store w') = Some r /\ status r = queued.
Proof.
  intros Himp Hpdf Hwr Hfresh Hbr.
  pose proof (async_fresh e file_name content qry w Himp Hpdf Hwr Hfresh) as H.
  cbv zeta in H.
  destruct (analyze_document_async e file_name content qry w) as [resp w'].
  rewrite Hbr in H. destruct H as (Hst & _ & -> & Hq & _).
  split; [reflexivity|]. split; [exact Hq|].
  eexists. rewrite Hst. split.
  - apply (db_get_app_fresh (mkRecord _ _ _ _ _ _ _ _ _)). exact Hfresh.
  - reflexivity.
Qed.

(** C1, at the failing input: the worker module is importable but the broker
    refuses the connection.  The request ends in an unhandled exception
    (a 500, not the 503 of the import guard), and the row committed just
    before stays in the Store as [queued], with its file and with nothing on
    the queue that would ever run it. *)
Theorem async_broker_down_leaves_queued_row :
  let '(resp, w') :=
    analyze_document_async (demo_env true (Some BROKER_DOWN) crew_ok rm_ok)
      "report.pdf" "%PDF-1.4" "" empty_world in
  resp = Unhandled BROKER_DOWN
  /\ (exists r, db_get "j1" (store w') = Some r /\ status r = queued)
  /\ job_count "j1" (store w') = 1%nat
  /\ is_set (fs w' !! file_path_of "j1") = true
  /\ queue w' = [].
Proof.
  vm_compute. repeat split. eexists. split; reflexivity.
Qed.

(** ** C4: the sync endpoint when the execution fails *)

(** C4, at the failing input: the crew raises during a sync submission.  The
    caller gets a 500 and the row is [failed] with the message and
    [completed_at], but [duration_seconds] is left unset; the worker's
    handler, for the same failure of the same job, does set it. *)
Theorem sync_failure_leaves_duration_unset :
  (let '(resp, w') :=
     analyze_document (demo_env true None crew_fails rm_ok)
       "report.pdf" "%PDF-1.4" "" empty_world in
   resp = HTTPException 500 "Error processing document: boom"
   /\ exists r, db_get "j1" (store w') = Some r
        /\ status r = failed /\ error r = Some "boom"
        /\ is_set (completed_at r) = true
        /\ duration_seconds r = None)
  /\
  (let e := demo_env true None crew_fails rm_ok in
   let w1 := snd (analyze_document_async e "report.pdf" "%PDF-1.4" "" empty_world) in
   let w2 := snd (analyze_document_task e
                    (mkDelivery "j1" DEFAULT_QUERY (file_path_of "j1") 0 0)
                    (set_queue [] w1)) in
   exists r, db_get "j1" (store w2) = Some r
        /\ status r = failed /\ error r = Some "boom"
        /\ is_set (completed_at r) = true
        /\ is_set (duration_seconds r) = true).
Proof.
  split; vm_compute; [split; [reflexivity|]|]; eexists; repeat split.
Qed.

(** ** C9: a filename without the accepted extension *)

(** C9 as stated fails: with the worker module missing, the async endpoint
    answers a non-PDF upload with 503, not with 400. *)
Lemma async_non_pdf_without_worker_is_503 :
  is_pdf "notes.txt" = false
  /\ fst (analyze_document_async (demo_env false None crew_ok rm_ok)
            "notes.txt" "hello" "" empty_world)
     = HTTPException 503
         "Queue worker unavailable. Ensure Redis is running and Celery is installed."
  /\ ~ exists detail,
         fst (analyze_document_async (demo_env false None crew_ok rm_ok)
                "notes.txt" "hello" "" empty_world)
         = HTTPException 400 detail.
Proof.
  split; [reflexivity|]. split; [reflexivity|].
  intros [detail H]. vm_compute in H. discriminate H.
Qed.

(** C9, amended: a filename that does not end in [.pdf] is rejected with 400
    by the sync endpoint, and by the async endpoint with 400 when the worker
    module is importable and with 503 when it is not; in every case the
    world is left as it was: no row, no file, no message. *)
Theorem non_pdf_rejected_without_effect (e : Env)
    (file_name content qry : string) (w : World) :
  is_pdf file_name = false ->
  analyze_document e file_name content qry w
  = (HTTPException 400 "Only PDF files are supported.", w)
  /\ analyze_document_async e file_name content qry w
     = (if worker_importable e
        then HTTPException 400 "Only PDF files are supported."
        else HTTPException 503
               "Queue worker unavailable. Ensure Redis is running and Celery is installed.",
        w).
Proof.
  intros H. unfold analyze_document, analyze_document_async. rewrite H.
  destruct (worker_importable e); split; reflexivity.
Qed.

Lemma non_pdf_rejected_without_effect_witness :
  is_pdf "notes.txt" = false
  /\ (analyze_document (demo_env true None crew_ok rm_ok)
        "notes.txt" "hello" "" empty_world
      = (HTTPException 400 "Only PDF files are supported.", empty_world)
      /\ analyze_document_async (demo_env true None crew_ok rm_ok)
           "notes.txt" "hello" "" empty_world
         = (HTTPException 400 "Only PDF files are supported.", empty_world)).
Proof.
  split; [reflexivity|].
  apply (non_pdf_rejected_without_effect (demo_env true None crew_ok rm_ok)).
  reflexivity.
Defined.

(** ** C3: the worker task for a job without a row *)

(** C3 as stated fails: with no row for the job the task signals nothing,
    runs the crew on the document and returns its report as completed. *)
Lemma task_without_row_runs_the_crew :
  let d := mkDelivery "ghost" "What changed?" (file_path_of "ghost") 0 0 in
  let '(out, w') :=
    analyze_document_task (demo_env true None crew_ok rm_ok) d empty_world in
  db_get "ghost" (store empty_world) = None
  /\ out = TaskReturn "completed" "report"
  /\ kickoffs (log w') = [("What changed?", file_path_of "ghost")].
Proof. vm_compute. repeat split. Qed.

(** C3, amended: for a job id without a row the task performs no Store
    write, but it signals no NotFound and does proceed: it runs the crew once
    on the document and returns the report as completed, or, when the crew
    raises, goes through [self.retry] as for any other job. *)
Theorem task_without_row (e : Env) (d : Delivery) (w : World) :
  db_get (d_task_id d) (store w) = None ->
  let '(out, w') := analyze_document_task e d w in
  store w' = store w
  /\ commits (events_since w w') = []
  /\ kickoffs (events_since w w') = [(d_query d, d_file_path d)]
  /\ out = match kickoff e (d_task_id d) (d_retries d) with
           | inl res => TaskReturn "completed" res
           | inr exc => if (2 <? S (d_retries d))%nat then TaskRaise exc
                        else TaskRetry (redelivery d)
           end.
Proof.
  intros Hrow. pose proof (task_absent e d w Hrow) as H.
  destruct (analyze_document_task e d w) as [out w'].
  destruct H as (Hst & _ & Hcase). split; [exact Hst|].
  pose proof (cleanup_events_no_commit e (d_task_id d) (d_retries d)
                (d_file_path d) (fs w)) as (Hc & _ & Hk).
  destruct (kickoff e (d_task_id d) (d_retries d)) as [res|exc].
  - destruct Hcase as (-> & _ & Hlog).
    rewrite (events_since_app _ _ _ Hlog).
    unfold commits, kickoffs in *. rewrite !omap_app, Hc, Hk. auto.
  - destruct (2 <? S (d_retries d))%nat; destruct Hcase as (-> & _ & Hlog);
      rewrite (events_since_app _ _ _ Hlog);
      unfold commits, kickoffs in *; rewrite !omap_app, Hc, Hk; auto.
Qed.

Lemma task_without_row_witness :
  let d := mkDelivery "ghost" "What changed?" (file_path_of "ghost") 0 0 in
  let e := demo_env true None crew_fails rm_ok in
  db_get (d_task_id d) (store empty_world) = None
  /\ let '(out, w') := analyze_document_task e d empty_world in
     store w' = store empty_world
     /\ commits (events_since empty_world w') = []
     /\ kickoffs (events_since empty_world w') = [(d_query d, d_file_path d)]
     /\ out = match kickoff e (d_task_id d) (d_retries d) with
              | inl res => TaskReturn "completed" res
              | inr exc => if (2 <? S (d_retries d))%nat then TaskRaise exc
                           else TaskRetry (redelivery d)
              end.
Proof.
  split; [reflexivity|].
  apply (task_without_row (demo_env true None crew_fails rm_ok)
           (mkDelivery "ghost" "What changed?" (file_path_of "ghost") 0 0)
           empty_world).
  reflexivity.
Defined.

(** ** C7: the transient file on every exit path *)

(** C7: whatever path the executor takes — the sync endpoint past its
    filename check, or the worker task with or without a row, with the crew
    returning or raising, retried or not — the response or task outcome, the
    Store and the queue are the same for every behaviour of [os.remove]; a
    removal that fails is swallowed and leaves only the file behind, and
    whenever the removal does not fail the file is gone afterwards. *)
Theorem cleanup_on_every_exit (e : Env) (rm : string -> nat -> bool)
    (file_name content qry : string) (d : Delivery) (w : World) :
  is_pdf file_name = true ->
  (let '(resp, w1) := analyze_document e file_name content qry w in
   let '(resp', w1') :=
     analyze_document (with_remove_ok rm e) file_name content qry w in
   resp' = resp /\ store w1' = store w1 /\ queue w1' = queue w1
   /\ (remove_ok e (uuid4 e) 0 = true ->
       fs w1 !! file_path_of (uuid4 e) = None))
  /\
  (let '(out, w1) := analyze_document_task e d w in
   let '(out', w1') := analyze_document_task (with_remove_ok rm e) d w in
   out' = out /\ store w1' = store w1 /\ queue w1' = queue w1
   /\ (remove_ok e (d_task_id d) (d_retries d) = true ->
       fs w1 !! d_file_path d = None)).
Proof.
  intros Hpdf. split.
  - destruct (sync_split e file_name content qry w Hpdf) as (resp & pre & H).
    pose proof (H (remove_ok e)) as H1. rewrite with_remove_ok_same in H1.
    rewrite H1, (H rm).
    rewrite !cleanup_store, !cleanup_queue, cleanup_fs_eq.
    repeat split. intros Hrm. apply cleanup_fs_removed. exact Hrm.
  - destruct (task_split e d w) as (out & pre & H).
    pose proof (H (remove_ok e)) as H1. rewrite with_remove_ok_same in H1.
    rewrite H1, (H rm).
    rewrite !cleanup_store, !cleanup_queue, cleanup_fs_eq.
    repeat split. intros Hrm. apply cleanup_fs_removed. exact Hrm.
Qed.

Lemma cleanup_on_every_exit_witness :
  is_pdf "report.pdf" = true
  /\ fst (analyze_document (demo_env true None crew_fails rm_fails)
            "report.pdf" "%PDF-1.4" "" empty_world)
     = fst (analyze_document (demo_env true None crew_fails rm_ok)
              "report.pdf" "%PDF-1.4" "" empty_world)
  /\ fs (snd (analyze_document (demo_env true None crew_fails rm_ok)
                "report.pdf" "%PDF-1.4" "" empty_world))
       !! file_path_of "j1" = None.
Proof.
  split; [reflexivity|].
  pose proof (cleanup_on_every_exit (demo_env true None crew_fails rm_ok)
                (fun _ => rm_fails) "report.pdf" "%PDF-1.4" ""
                (mkDelivery "j1" DEFAULT_QUERY (file_path_of "j1") 0 0)
                empty_world eq_refl) as [Hsync _].
  destruct (analyze_document (demo_env true None crew_fails rm_ok)
              "report.pdf" "%PDF-1.4" "" empty_world) as [resp w1] eqn:E1.
  change (with_remove_ok (fun _ => rm_fails) (demo_env true None crew_fails rm_ok))
    with (demo_env true None crew_fails rm_fails) in Hsync.
  destruct (analyze_document (demo_env true None crew_fails rm_fails)
              "report.pdf" "%PDF-1.4" "" empty_world) as [resp' w1'] eqn:E2.
  destruct Hsync as (Hresp & _ & _ & Hfs).
  split; [exact Hresp | apply Hfs; reflexivity].
Defined.

(** ** C8: the history list *)

Lemma insert_desc_perm (r : AnalysisRecord) (l : list AnalysisRecord) :
  insert_desc r l ≡ₚ r :: l.
Proof.
  induction l as [|x l IH]; simpl; [reflexivity|].
  destruct (created_at x <=? created_at r); [reflexivity|].
  rewrite IH. apply Permutation_swap.
Qed.

Lemma order_by_perm (l : list AnalysisRecord) :
  order_by_created_at_desc l ≡ₚ l.
Proof.
  induction l as [|x l IH]; simpl; [reflexivity|].
  rewrite insert_desc_perm, IH. reflexivity.
Qed.

Lemma insert_desc_sorted (r : AnalysisRecord) (l : list AnalysisRecord) :
  StronglySorted newer_first l -> StronglySorted newer_first (insert_desc r l).
Proof.
  induction 1 as [|x l Hs IH Hall]; simpl.
  - repeat constructor.
  - destruct (created_at x <=? created_at r) eqn:E.
    + apply Z.leb_le in E. constructor; [constructor; assumption|].
      constructor; [exact E|].
      eapply Forall_impl; [exact Hall|].
      unfold newer_first. intros y Hy. lia.
    + apply Z.leb_gt in E. constructor; [exact IH|].
      rewrite insert_desc_perm. constructor; [unfold newer_first; lia | exact Hall].
Qed.

Lemma order_by_sorted (l : list AnalysisRecord) :
  StronglySorted newer_first (order_by_created_at_desc l).
Proof.
  induction l as [|x l IH]; simpl; [constructor | apply insert_desc_sorted, IH].
Qed.

Lemma take_sorted {A} (R : relation A) (n : nat) (l : list A) :
  StronglySorted R l -> StronglySorted R (take n l).
Proof.
  intros H. rewrite <- (take_drop n l) in H.
  eapply StronglySorted_app_1_l. exact H.
Qed.

Lemma filter_all {A} (l : list A) : List.filter (fun _ => true) l = l.
Proof. induction l as [|x l IH]; simpl; [reflexivity|]. rewrite IH. reflexivity. Qed.

(** The status filter selects what the request asks for. *)
Lemma filter_selected (st : option string) (s : Store) :
  List.filter (status_filter st) s = selected st s.
Proof.
  destruct st as [t|]; simpl; [|apply filter_all].
  destruct (String.eqb t "") eqn:E.
  - rewrite <- (filter_all s) at 2. apply List.filter_ext.
    intros r. simpl. rewrite E. reflexivity.
  - apply List.filter_ext. intros r. simpl. rewrite E. reflexivity.
Qed.

(** The reply of the history endpoint, in one piece. *)
Lemma history_reply (limit : Z) (st : option string) (s : Store) :
  get_analysis_history limit st s
  = let cap := Z.min limit 100 in
    let sorted := order_by_created_at_desc (selected st s) in
    if cap <? INT64_MIN then HistoryCrash OVERFLOW_ERROR
    else
      let rows := if cap <? 0 then sorted else take (Z.to_nat cap) sorted in
      HistoryOk (Z.of_nat (length rows)) (map summary_of rows).
Proof.
  unfold get_analysis_history, history_rows, sql_limit. rewrite filter_selected.
  cbv zeta. destruct (Z.min limit 100 <? INT64_MIN); reflexivity.
Qed.

(** C8, at the failing input: a request with [limit=-1] while 120 jobs are
    stored.  [min(-1, 100)] is -1, which is passed to [LIMIT] unchecked and
    means no bound there: all 120 records come back, past the maximum of 100
    that the handler's docstring gives. *)
Theorem history_negative_limit_exceeds_cap :
  exists records,
    get_analysis_history (-1) None (many_jobs 120) = HistoryOk 120 records
    /\ length records = 120%nat
    /\ ~ (Z.of_nat (length records) <= 100).
Proof.
  eexists. split; [vm_compute; reflexivity|]. split; [reflexivity|].
  vm_compute. intros H. apply H. reflexivity.
Qed.

(** The two examples of the claim, run. *)
Example history_limit_5_of_3 :
  get_analysis_history 5 None three_jobs
  = HistoryOk 3 [summary_of (job_at "b" processing 30);
                 summary_of (job_at "c" queued 20);
                 summary_of (job_at "a" queued 10)].
Proof. reflexivity. Qed.

Example history_limit_150_of_120 :
  exists records,
    get_analysis_history 150 None (many_jobs 120) = HistoryOk 100 records.
Proof. eexists. vm_compute. reflexivity. Qed.

(** ** C2 and C5: what is written to a job's row, and in which order *)

Lemma events_since_refl (w : World) : events_since w w = [].
Proof. unfold events_since. apply drop_all. Qed.

Lemma commits_app (l1 l2 : list Event) :
  commits (l1 ++ l2) = (commits l1 ++ commits l2)%list.
Proof. apply omap_app. Qed.

Lemma commits_cleanup e i n p (f : gmap string string) :
  commits (cleanup_events e i n p f) = [].
Proof. apply cleanup_events_no_commit. Qed.

Lemma statuses_written_app (j : string) (l1 l2 : list Event) :
  statuses_written j (l1 ++ l2)
  = (statuses_written j l1 ++ statuses_written j l2)%list.
Proof.
  unfold statuses_written. rewrite commits_app, List.filter_app, map_app.
  reflexivity.
Qed.

(** The facts of one attempt on a job with a row, brought into the context. *)
Ltac attempt_facts e d w r Hrow Hk Ht H :=
  first
    [ pose proof (task_found_ok e d w r Hrow _ Hk) as H
    | pose proof (task_found_fail e d w r Hrow _ Hk) as H ];
  cbv zeta in H; rewrite Ht in H.

Lemma first_attempt_writes (e : Env) d w r :
  db_get (d_task_id d) (store w) = Some r ->
  result r = None -> error r = None ->
  Forall record_inv
    (commits (events_since w (snd (analyze_document_task e d w)))).
Proof.
  intros Hrow Hres Herr.
  destruct (analyze_document_task e d w) as [out w'] eqn:Ht.
  destruct (kickoff e (d_task_id d) (d_retries d)) as [res|exc] eqn:Hk.
  - attempt_facts e d w r Hrow Hk Ht H.
    destruct H as (_ & _ & _ & _ & _ & _ & Hlog). simpl.
    rewrite (events_since_app _ _ _ Hlog), commits_app, commits_cleanup.
    simpl. repeat constructor; unfold record_inv; simpl; auto.
    rewrite Herr. reflexivity.
  - attempt_facts e d w r Hrow Hk Ht H.
    destruct H as (_ & _ & _ & _ & Hcase). simpl.
    destruct (2 <? S (d_retries d))%nat; destruct Hcase as (_ & _ & Hlog);
      rewrite (events_since_app _ _ _ Hlog), commits_app, commits_cleanup;
      simpl; repeat constructor; unfold record_inv; simpl; auto;
      rewrite Hres; reflexivity.
Qed.

Lemma job_run_statuses (e : Env) d w tr w2 :
  job_run e d w tr w2 ->
  attempts_writes (statuses_written (d_task_id d) (events_since w w2)).
Proof.
  induction 1 as [d w r res w' Hq Hrow Hk Ht
                 |d w r exc w' Hq Hrow Hk Hb Ht
                 |d w r exc w' tr w'' Hq Hrow Hk Hb Ht Hrun IH];
    pose proof (db_get_id _ _ _ Hrow) as Hid;
    apply String.eqb_eq in Hid.
  - attempt_facts e d w r Hrow Hk Ht H.
    destruct H as (_ & _ & _ & _ & _ & _ & Hlog).
    rewrite (events_since_app _ _ _ Hlog).
    unfold statuses_written. rewrite commits_app, commits_cleanup.
    simpl. rewrite Hid. simpl. constructor.
  - attempt_facts e d w r Hrow Hk Ht H. rewrite Hb in H.
    destruct H as (_ & _ & _ & _ & _ & _ & Hlog).
    rewrite (events_since_app _ _ _ Hlog).
    unfold statuses_written. rewrite commits_app, commits_cleanup.
    simpl. rewrite Hid. simpl. constructor.
  - attempt_facts e d w r Hrow Hk Ht H. rewrite Hb in H.
    destruct H as (_ & _ & _ & _ & _ & _ & Hlog).
    rewrite (events_since_step w w' w'' _ Hlog (job_run_log _ _ _ _ _ Hrun)).
    rewrite statuses_written_app.
    unfold statuses_written at 1. rewrite commits_app, commits_cleanup.
    simpl. rewrite Hid. simpl. constructor. exact IH.
Qed.

Lemma attempts_writes_forward (l : list Status) :
  attempts_writes l ->
  forward_or_retry (queued :: l) = true /\ forward_or_retry (failed :: l) = true.
Proof.
  induction 1 as [| |l Hl [_ IH]]; [split; reflexivity..|].
  split; simpl in *; exact IH.
Qed.

Lemma job_count_fresh (r : AnalysisRecord) (s : Store) :
  db_get (id r) s = None -> job_count (id r) (s ++ [r]) = 1%nat.
Proof.
  intros H. unfold job_count. rewrite map_app, List.filter_app, length_app.
  simpl. rewrite String.eqb_refl. simpl.
  apply db_get_None_not_in in H.
  assert (List.filter (String.eqb (id r)) (map id s) = []) as ->; [|reflexivity].
  induction (map id s) as [|x l IH]; [reflexivity|]. simpl.
  apply not_elem_of_cons in H as [Hne Hl].
  destruct (String.eqb (id r) x) eqn:E.
  - apply String.eqb_eq in E. congruence.
  - apply IH, Hl.
Qed.

(** An accepted async submission, followed by the worker. *)
Lemma async_then_worker (e : Env) (file_name content qry : string) (w : World) :
  db_get (uuid4 e) (store w) = None ->
  queue w = [] ->
  worker_importable e = true ->
  is_pdf file_name = true ->
  write_err e = None ->
  broker_err e = None ->
  let w1 := snd (analyze_document_async e file_name content qry w) in
  let row := mkRecord (uuid4 e) file_name (normalize_query qry) queued None None
                      (clock e (ticks w)) None None in
  let d := mkDelivery (uuid4 e) (normalize_query qry)
                      (file_path_of (uuid4 e)) 0 0 in
  store w1 = (store w ++ [row])%list
  /\ log w1 = (log w ++ [EvWriteFile (file_path_of (uuid4 e)); EvCommit row;
                         EvEnqueue d])%list
  /\ queue w1 = [d]
  /\ exists tr w2,
       run_worker 3 e w1 = Some (tr, w2)
       /\ queue w2 = []
       /\ job_run e d (set_queue [] w1) tr w2.
Proof.
  intros Hfresh Hq Himp Hpdf Hwr Hbr.
  pose proof (async_fresh e file_name content qry w Himp Hpdf Hwr Hfresh) as H.
  cbv zeta in H.
  destruct (analyze_document_async e file_name content qry w) as [resp w1].
  rewrite Hbr, Hq in H. destruct H as (Hst & _ & _ & Hq1 & Hlog).
  simpl in Hq1. cbn [snd].
  split; [exact Hst|]. split; [exact Hlog|]. split; [exact Hq1|].
  eapply run_worker_job; [exact Hq1| |simpl; lia|lia].
  rewrite Hst. simpl.
  apply (db_get_app_fresh (mkRecord _ _ _ _ _ _ _ _ _)). exact Hfresh.
Qed.

(** ** C2: result and error against status *)

(** C2, at the failing input: an async job whose first attempt raises and
    whose retry succeeds.  The task never resets [record.error]: the retry
    writes [processing] over a row that still carries the error of the first
    attempt, and when it succeeds the row ends [completed] with both result
    and error set.  [GET /history/{task_id}] returns both fields whatever
    the status, so the finished job is shown with its analysis and with the
    stale error. *)
Theorem retry_keeps_stale_error :
  let e := demo_env true None crew_fails_once rm_ok in
  let w1 := snd (analyze_document_async e "report.pdf" "%PDF-1.4" "" empty_world) in
  exists tr w2,
    run_worker 3 e w1 = Some (tr, w2)
    /\ (exists r, r ∈ commits (events_since w1 w2)
          /\ id r = "j1"
          /\ status r = processing /\ error r = Some "boom"
          /\ ~ record_inv r)
    /\ (exists r, db_get "j1" (store w2) = Some r
          /\ status r = completed
          /\ result r = Some "report" /\ error r = Some "boom"
          /\ ~ record_inv r)
    /\ exists body,
         get_analysis_by_id "j1" (store w2) = ReplyOk body
         /\ body !! "status" = Some (VStr "completed")
         /\ body !! "analysis" = Some (VStr "report")
         /\ body !! "error" = Some (VStr "boom").
Proof.
  eexists _, _. split; [vm_compute; reflexivity|]. split; [|split].
  - exists (mkRecord "j1" "report.pdf" DEFAULT_QUERY processing None (Some "boom")
                      0 (Some 3000000) (Some 100)).
    split; [|repeat split].
    + vm_compute. do 2 apply list_elem_of_further. apply list_elem_of_here.
    + unfold record_inv. simpl. intros [_ H]. discriminate H.
  - eexists. split; [vm_compute; reflexivity|].
    repeat split. unfold record_inv. simpl. discriminate.
  - eexists. split; [vm_compute; reflexivity|].
    repeat split.
Qed.

(** ** C5: the order of the status writes *)

(** C5 as stated fails on a retried execution: after the first attempt has
    written [failed], the second writes [processing] again. *)
Lemma retry_moves_failed_back_to_processing :
  let e := demo_env true None crew_fails_once rm_ok in
  let w1 := snd (analyze_document_async e "report.pdf" "%PDF-1.4" "" empty_world) in
  exists tr w2,
    run_worker 3 e w1 = Some (tr, w2)
    /\ statuses_written "j1" (events_since empty_world w2)
       = [queued; processing; failed; processing; completed]
    /\ forward_only (statuses_written "j1" (events_since empty_world w2)) = false.
Proof.
  eexists _, _. split; [vm_compute; reflexivity|]. split; vm_compute; reflexivity.
Qed.

(** C5, amended.  For every valid submission that draws a fresh id there is
    exactly one row with that id, and the status values written for it are:
    - sync: [processing], then [completed] or [failed];
    - async: [queued], then for each attempt of the worker [processing]
      followed by [completed] or [failed], a further attempt following only
      a [failed] one.
    So within an attempt the [processing] write precedes the terminal write,
    no write returns to [queued] and none follows [completed]; the one
    backward move is [failed] to [processing] at the start of a retry. *)
Theorem status_writes_in_order (e : Env)
    (file_name content qry : string) (w : World) :
  db_get (uuid4 e) (store w) = None ->
  queue w = [] ->
  is_pdf file_name = true ->
  write_err e = None ->
  (let w1 := snd (analyze_document e file_name content qry w) in
   job_count (uuid4 e) (store w1) = 1%nat
   /\ (statuses_written (uuid4 e) (events_since w w1) = [processing; completed]
       \/ statuses_written (uuid4 e) (events_since w w1) = [processing; failed]))
  /\
  (worker_importable e = true ->
   broker_err e = None ->
   let w1 := snd (analyze_document_async e file_name content qry w) in
   exists tr w2 l,
     run_worker 3 e w1 = Some (tr, w2)
     /\ job_count (uuid4 e) (store w1) = 1%nat
     /\ job_count (uuid4 e) (store w2) = 1%nat
     /\ statuses_written (uuid4 e) (events_since w w2) = queued :: l
     /\ attempts_writes l
     /\ forward_or_retry (queued :: l) = true).
Proof.
  intros Hfresh Hq Hpdf Hwr. split.
  - pose proof (sync_fresh e file_name content qry w Hpdf Hfresh) as H.
    destruct (analyze_document e file_name content qry w) as [resp w1].
    rewrite Hwr in H. destruct H as (_ & _ & H). cbn [snd].
    destruct (kickoff e (uuid4 e) 0) as [res|exc];
      destruct H as (_ & Hst & Hlog);
      rewrite (events_since_app _ _ _ Hlog), Hst;
      (split; [apply (job_count_fresh (mkRecord _ _ _ _ _ _ _ _ _)); exact Hfresh|]);
      unfold statuses_written; rewrite commits_app, commits_cleanup; simpl;
      rewrite String.eqb_refl; simpl; auto.
  - intros Himp Hbr.
    pose proof (async_then_worker e file_name content qry w
                  Hfresh Hq Himp Hpdf Hwr Hbr) as H.
    cbv zeta in H. cbv zeta.
    set (w1 := snd (analyze_document_async e file_name content qry w)) in *.
    destruct H as (Hst & Hlog & Hq1 & tr & w2 & Hrun & _ & Hjr).
    pose proof (job_run_statuses e _ _ _ _ Hjr) as Hst2.
    pose proof (job_run_log e _ _ _ _ Hjr) as Hlog2.
    pose proof (job_run_ids e _ _ _ _ Hjr) as Hids.
    cbn [d_task_id] in Hst2. simpl in Hlog2, Hids.
    exists tr, w2, (statuses_written (uuid4 e) (events_since w1 w2)).
    assert (Hcount : job_count (uuid4 e) (store w1) = 1%nat)
      by (rewrite Hst; apply (job_count_fresh (mkRecord _ _ _ _ _ _ _ _ _));
          exact Hfresh).
    split; [exact Hrun|]. split; [exact Hcount|].
    split; [unfold job_count in *; rewrite Hids; exact Hcount|].
    split; [|split; [exact Hst2 | apply attempts_writes_forward, Hst2]].
    rewrite (events_since_step w w1 w2 _ Hlog Hlog2), statuses_written_app.
    unfold statuses_written at 1. simpl. rewrite String.eqb_refl. reflexivity.
Qed.

Lemma status_writes_in_order_witness :
  let e := demo_env true None crew_fails_once rm_ok in
  (db_get (uuid4 e) (store empty_world) = None
   /\ queue empty_world = []
   /\ is_pdf "report.pdf" = true
   /\ write_err e = None
   /\ worker_importable e = true
   /\ broker_err e = None)
  /\ exists tr w2 l,
       run_worker 3 e
         (snd (analyze_document_async e "report.pdf" "%PDF-1.4" "" empty_world))
       = Some (tr, w2)
       /\ job_count (uuid4 e)
            (store (snd (analyze_document_async e "report.pdf" "%PDF-1.4" ""
                           empty_world))) = 1%nat
       /\ job_count (uuid4 e) (store w2) = 1%nat
       /\ statuses_written (uuid4 e) (events_since empty_world w2) = queued :: l
       /\ attempts_writes l
       /\ forward_or_retry (queued :: l) = true.
Proof.
  split; [repeat split|].
  apply (status_writes_in_order (demo_env true None crew_fails_once rm_ok)
           "report.pdf" "%PDF-1.4" "" empty_world); reflexivity.
Defined.

(** ** C6 and C10: the retry budget and the file across attempts *)

Lemma retries_sent_app (l1 l2 : list Event) :
  retries_sent (l1 ++ l2) = (retries_sent l1 ++ retries_sent l2)%list.
Proof. apply omap_app. Qed.

Lemma retries_sent_cleanup e i n p (f : gmap string string) :
  retries_sent (cleanup_events e i n p f) = [].
Proof. apply cleanup_events_no_commit. Qed.

Lemma job_run_length (e : Env) d w tr w2 :
  job_run e d w tr w2 ->
  (1 <= length tr)%nat
  /\ (length tr + d_retries d <= 3 \/ length tr = 1)%nat.
Proof.
  induction 1 as [d w r res w' Hq Hrow Hk Ht
                 |d w r exc w' Hq Hrow Hk Hb Ht
                 |d w r exc w' tr w'' Hq Hrow Hk Hb Ht Hrun IH]; simpl.
  - lia.
  - lia.
  - apply Nat.ltb_ge in Hb. simpl in IH. lia.
Qed.

Lemma job_run_retries (e : Env) d w tr w2 :
  job_run e d w tr w2 ->
  retries_sent (events_since w w2) = retry_chain d (length tr - 1).
Proof.
  induction 1 as [d w r res w' Hq Hrow Hk Ht
                 |d w r exc w' Hq Hrow Hk Hb Ht
                 |d w r exc w' tr w'' Hq Hrow Hk Hb Ht Hrun IH].
  - attempt_facts e d w r Hrow Hk Ht H.
    destruct H as (_ & _ & _ & _ & _ & _ & Hlog).
    rewrite (events_since_app _ _ _ Hlog), retries_sent_app, retries_sent_cleanup.
    reflexivity.
  - attempt_facts e d w r Hrow Hk Ht H. rewrite Hb in H.
    destruct H as (_ & _ & _ & _ & _ & _ & Hlog).
    rewrite (events_since_app _ _ _ Hlog), retries_sent_app, retries_sent_cleanup.
    reflexivity.
  - attempt_facts e d w r Hrow Hk Ht H. rewrite Hb in H.
    destruct H as (_ & _ & _ & _ & _ & _ & Hlog).
    rewrite (events_since_step w w' w'' _ Hlog (job_run_log _ _ _ _ _ Hrun)).
    rewrite !retries_sent_app, retries_sent_cleanup.
    pose proof (job_run_length _ _ _ _ _ Hrun) as [Hpos _].
    change (events_since (set_queue [] w') w'') with (events_since w' w'') in IH.
    rewrite IH.
    replace (length ((w, d, TaskRetry (redelivery d)) :: tr) - 1)%nat
      with (S (length tr - 1)) by (simpl; lia).
    reflexivity.
Qed.

Lemma retry_chain_countdown (d : Delivery) (n : nat) :
  Forall (fun d' => d_countdown d' = 5 /\ d_task_id d' = d_task_id d
                    /\ (d_retries d < d_retries d' <= d_retries d + n)%nat)
         (retry_chain d n).
Proof.
  revert d. induction n as [|n IH]; intros d; simpl; constructor.
  - simpl. repeat split; lia.
  - eapply Forall_impl; [apply IH|]. simpl. intros d' (? & ? & ?).
    repeat split; [assumption..|lia|lia].
Qed.

(** Each entry of the trace is the attempt with that many retries behind
    it, has the outcome the crew and the budget dictate, and is followed by
    another exactly when it failed with budget left. *)
Lemma job_run_trace (e : Env) d w tr w2 :
  job_run e d w tr w2 ->
  forall i wi di oi,
    tr !! i = Some (wi, di, oi) ->
    d_retries di = (d_retries d + i)%nat
    /\ d_task_id di = d_task_id d
    /\ d_file_path di = d_file_path d
    /\ oi = outcome_of e di
    /\ (is_Some (tr !! S i) <->
        exists exc, kickoff e (d_task_id d) (d_retries d + i) = inr exc
                    /\ (d_retries d + i < 2)%nat).
Proof.
  induction 1 as [d w r res w' Hq Hrow Hk Ht
                 |d w r exc w' Hq Hrow Hk Hb Ht
                 |d w r exc w' tr w'' Hq Hrow Hk Hb Ht Hrun IH];
    intros i wi di oi Hi.
  - destruct i as [|i]; [|discriminate Hi]. injection Hi as <- <- <-.
    rewrite Nat.add_0_r. unfold outcome_of. rewrite Hk.
    repeat split; [intros [x Hx]; discriminate Hx|].
    intros (exc & Hexc & _). congruence.
  - destruct i as [|i]; [|discriminate Hi]. injection Hi as <- <- <-.
    rewrite Nat.add_0_r. unfold outcome_of. rewrite Hk, Hb.
    repeat split; [intros [x Hx]; discriminate Hx|].
    intros (_ & _ & Hlt). apply Nat.ltb_lt in Hb. lia.
  - destruct i as [|i].
    + injection Hi as <- <- <-.
      rewrite Nat.add_0_r. unfold outcome_of. rewrite Hk, Hb.
      repeat split.
      * intros _. exists exc. split; [reflexivity|]. apply Nat.ltb_ge in Hb. lia.
      * intros _. pose proof (job_run_length _ _ _ _ _ Hrun) as [Hpos _].
        destruct tr; [simpl in Hpos; lia|]. simpl. eauto.
    + simpl in Hi. destruct (IH _ _ _ _ Hi) as (Hr & Hid & Hp & Ho & Hnext).
      simpl in Hr, Hid, Hp, Hnext.
      replace (d_retries d + S i)%nat with (S (d_retries d + i)) by lia.
      repeat split; [exact Hr|exact Hid|exact Hp|exact Ho|apply Hnext|apply Hnext].
Qed.

(** The row as the last attempt leaves it. *)
Lemma job_run_final_row (e : Env) d w tr w2 :
  job_run e d w tr w2 ->
  exists r2,
    db_get (d_task_id d) (store w2) = Some r2
    /\ match kickoff e (d_task_id d) (d_retries d + length tr - 1) with
       | inl res => status r2 = completed /\ result r2 = Some res
       | inr exc => status r2 = failed /\ error r2 = Some exc
       end.
Proof.
  induction 1 as [d w r res w' Hq Hrow Hk Ht
                 |d w r exc w' Hq Hrow Hk Hb Ht
                 |d w r exc w' tr w'' Hq Hrow Hk Hb Ht Hrun IH]; simpl length.
  - attempt_facts e d w r Hrow Hk Ht H.
    destruct H as (_ & _ & Hrow' & _).
    replace (d_retries d + 1 - 1)%nat with (d_retries d) by lia.
    rewrite Hk. eexists. split; [exact Hrow'|]. split; reflexivity.
  - attempt_facts e d w r Hrow Hk Ht H.
    destruct H as (_ & Hrow' & _).
    replace (d_retries d + 1 - 1)%nat with (d_retries d) by lia.
    rewrite Hk. eexists. split; [exact Hrow'|]. split; reflexivity.
  - pose proof (job_run_length _ _ _ _ _ Hrun) as [Hpos _].
    simpl in IH.
    replace (d_retries d + S (length tr) - 1)%nat
      with (S (d_retries d) + length tr - 1)%nat by lia.
    exact IH.
Qed.



(** ** C6: the retry budget *)

(** C6: for a job with a row, delivered for the first time, the worker makes
    at most three attempts (the first and at most 2 redeliveries), each
    redelivery sent by a failed attempt with a countdown of 5; an attempt is
    followed by another exactly when it failed with budget left; afterwards
    nothing is left on the queue and the row reflects the last attempt.  When
    every attempt fails there are exactly three, and the row stays [failed]
    with the error of the third. *)
Theorem retry_budget (e : Env) (d : Delivery) (w : World) (r : AnalysisRecord) :
  queue w = [d] ->
  d_retries d = 0%nat ->
  db_get (d_task_id d) (store w) = Some r ->
  exists tr w2,
    run_worker 3 e w = Some (tr, w2)
    /\ queue w2 = []
    /\ (1 <= length tr <= 3)%nat
    /\ retries_sent (events_since w w2) = retry_chain d (length tr - 1)
    /\ Forall (fun d' => d_countdown d' = 5) (retries_sent (events_since w w2))
    /\ (forall i wi di oi,
          tr !! i = Some (wi, di, oi) ->
          d_retries di = i
          /\ oi = outcome_of e di
          /\ (is_Some (tr !! S i) <->
              exists exc, kickoff e (d_task_id d) i = inr exc /\ (i < 2)%nat))
    /\ (exists r2,
          db_get (d_task_id d) (store w2) = Some r2
          /\ match kickoff e (d_task_id d) (length tr - 1) with
             | inl res => status r2 = completed /\ result r2 = Some res
             | inr exc => status r2 = failed /\ error r2 = Some exc
             end)
    /\ ((forall i, (i < 3)%nat -> exists exc, kickoff e (d_task_id d) i = inr exc) ->
        length tr = 3%nat
        /\ exists exc r2,
             kickoff e (d_task_id d) 2 = inr exc
             /\ db_get (d_task_id d) (store w2) = Some r2
             /\ status r2 = failed /\ error r2 = Some exc).
Proof.
  intros Hq H0 Hrow.
  destruct (run_worker_job e 3 d w r Hq Hrow) as (tr & w2 & Hrun & Hq2 & Hjr);
    [lia..|].
  pose proof (job_run_length _ _ _ _ _ Hjr) as [Hpos Hlen].
  pose proof (job_run_retries _ _ _ _ _ Hjr) as Hret.
  pose proof (job_run_trace _ _ _ _ _ Hjr) as Htr.
  pose proof (job_run_final_row _ _ _ _ _ Hjr) as (r2 & Hrow2 & Hfin).
  change (events_since (set_queue [] w) w2) with (events_since w w2) in Hret.
  simpl in Hrow2. rewrite H0 in Hlen, Hfin, Htr. simpl in Hfin.
  assert (Htrace : forall i wi di oi,
            tr !! i = Some (wi, di, oi) ->
            d_retries di = i /\ oi = outcome_of e di
            /\ (is_Some (tr !! S i) <->
                exists exc, kickoff e (d_task_id d) i = inr exc /\ (i < 2)%nat)).
  { intros i wi di oi Hi. destruct (Htr _ _ _ _ Hi) as (Hr & _ & _ & Ho & Hn).
    simpl in Hr, Hn. auto. }
  exists tr, w2. split; [exact Hrun|]. split; [exact Hq2|].
  split; [lia|]. split; [exact Hret|]. split.
  { rewrite Hret. eapply Forall_impl; [apply retry_chain_countdown|].
    simpl. intros d' (Hc & _). exact Hc. }
  split; [exact Htrace|]. split; [exists r2; split; assumption|].
  intros Hall.
  assert (Hlen3 : length tr = 3%nat).
  { destruct tr as [|[[w0 d0] o0] tr]; [simpl in Hpos; lia|].
    destruct (Htrace 0%nat w0 d0 o0 eq_refl) as (_ & _ & Hn0).
    destruct (Hall 0%nat ltac:(lia)) as (x0 & Hx0).
    destruct (proj2 Hn0) as [[[w1 d1] o1] H1]; [exists x0; split; [exact Hx0|lia]|].
    destruct (Htrace 1%nat w1 d1 o1 H1) as (_ & _ & Hn1).
    destruct (Hall 1%nat ltac:(lia)) as (x1 & Hx1).
    destruct (proj2 Hn1) as [x2 H2]; [exists x1; split; [exact Hx1|lia]|].
    apply lookup_lt_Some in H2. simpl in H2 |- *. simpl in Hlen. lia. }
  split; [exact Hlen3|].
  rewrite Hlen3 in Hfin. simpl in Hfin.
  destruct (Hall 2%nat ltac:(lia)) as (exc & Hexc). rewrite Hexc in Hfin.
  exists exc, r2. tauto.
Qed.

Lemma retry_budget_witness :
  let e := demo_env true None crew_fails rm_ok in
  let w1 := snd (analyze_document_async e "report.pdf" "%PDF-1.4" "" empty_world) in
  let d := mkDelivery "j1" DEFAULT_QUERY (file_path_of "j1") 0 0 in
  let r := mkRecord "j1" "report.pdf" DEFAULT_QUERY queued None None 0 None None in
  (queue w1 = [d] /\ d_retries d = 0%nat /\ db_get (d_task_id d) (store w1) = Some r)
  /\ exists tr w2,
       run_worker 3 e w1 = Some (tr, w2)
       /\ queue w2 = []
       /\ (1 <= length tr <= 3)%nat.
Proof.
  split; [repeat split|].
  destruct (retry_budget (demo_env true None crew_fails rm_ok)
              (mkDelivery "j1" DEFAULT_QUERY (file_path_of "j1") 0 0)
              (snd (analyze_document_async (demo_env true None crew_fails rm_ok)
                      "report.pdf" "%PDF-1.4" "" empty_world))
              (mkRecord "j1" "report.pdf" DEFAULT_QUERY queued None None 0 None None)
              eq_refl eq_refl eq_refl)
    as (tr & w2 & Hrun & Hq & Hlen & _).
  exists tr, w2. split; [exact Hrun|]. split; [exact Hq | exact Hlen].
Defined.

(** The budget, run: three failures, two redeliveries with countdown 5, and
    the row left [failed]. *)
Example three_failures :
  let e := demo_env true None crew_fails rm_ok in
  let w1 := snd (analyze_document_async e "report.pdf" "%PDF-1.4" "" empty_world) in
  exists tr w2,
    run_worker 3 e w1 = Some (tr, w2)
    /\ map snd tr
       = [TaskRetry (mkDelivery "j1" DEFAULT_QUERY (file_path_of "j1") 1 5);
          TaskRetry (mkDelivery "j1" DEFAULT_QUERY (file_path_of "j1") 2 5);
          TaskRaise "boom"]
    /\ (status <$> db_get "j1" (store w2)) = Some failed
    /\ (error <$> db_get "j1" (store w2)) = Some (Some "boom")
    /\ queue w2 = [].
Proof.
  eexists _, _. split; [vm_compute; reflexivity|]. repeat split.
Qed.

(** ** C10: the file when a retried attempt begins *)





(** * Beyond the claims *)

(** ** Strings as lists of characters *)

Lemma chars_cons (a : ascii) (s : string) : chars (String a s) = a :: chars s.
Proof. reflexivity. Qed.

Lemma chars_inj (s t : string) : chars s = chars t -> s = t.
Proof.
  intros H. rewrite <- (String.string_of_list_ascii_of_string s).
  rewrite <- (String.string_of_list_ascii_of_string t).
  unfold chars in H. rewrite H. reflexivity.
Qed.

Lemma chars_app (s t : string) : chars (s +:+ t) = (chars s ++ chars t)%list.
Proof.
  unfold chars. induction s as [|a s IH]; simpl; [reflexivity|].
  rewrite IH. reflexivity.
Qed.

Lemma chars_length (s : string) : String.length s = length (chars s).
Proof.
  unfold chars. induction s as [|a s IH]; simpl; [reflexivity|].
  rewrite IH. reflexivity.
Qed.

Lemma chars_rev_app (s t : string) :
  chars (String.rev_app s t) = (reverse (chars s) ++ chars t)%list.
Proof.
  unfold chars. revert t. induction s as [|a s IH]; intros t; simpl; [reflexivity|].
  rewrite IH. simpl. rewrite reverse_cons, <- app_assoc. reflexivity.
Qed.

Lemma chars_rev (s : string) : chars (String.rev s) = reverse (chars s).
Proof. unfold String.rev. rewrite chars_rev_app. apply app_nil_r. Qed.

Lemma rev_involutive (s : string) : String.rev (String.rev s) = s.
Proof. apply chars_inj. rewrite !chars_rev. apply reverse_involutive. Qed.

Lemma rev_append (s t : string) :
  String.rev (s +:+ t) = String.rev t +:+ String.rev s.
Proof. apply chars_inj. rewrite chars_rev, !chars_app, !chars_rev. apply reverse_app. Qed.

Lemma chars_lower (s : string) : chars (lower s) = map lower_ascii (chars s).
Proof.
  unfold chars. induction s as [|a s IH]; simpl; [reflexivity|].
  rewrite IH. reflexivity.
Qed.

Lemma startswith_prefix (p s : string) :
  startswith p s = true <-> chars p `prefix_of` chars s.
Proof.
  revert s. induction p as [|a p IH]; intros s.
  - split; [intros _; apply prefix_nil | reflexivity].
  - destruct s as [|b s]; cbn [startswith].
    + split; [discriminate|]. intros [k Hk]. discriminate Hk.
    + rewrite !chars_cons. destruct (Ascii.eqb a b) eqn:E.
      * apply Ascii.eqb_eq in E. subst b. rewrite IH. split.
        -- apply prefix_cons.
        -- apply prefix_cons_inv_2.
      * apply Ascii.eqb_neq in E. split; [discriminate|].
        intros H. apply prefix_cons_inv_1 in H. congruence.
Qed.

Lemma endswith_suffix (s suf : string) :
  endswith s suf = true <-> chars suf `suffix_of` chars s.
Proof.
  unfold endswith. rewrite startswith_prefix, !chars_rev.
  rewrite <- suffix_prefix_reverse. reflexivity.
Qed.

(** ** The filename check, the query and the file path *)

(** X1: a filename is accepted exactly when it ends in [.pdf] in any mix of
    upper and lower case. *)
Theorem is_pdf_iff (file_name : string) :
  is_pdf file_name = true
  <-> exists stem ext, file_name = stem +:+ ext /\ lower ext = ".pdf".
Proof.
  unfold is_pdf. rewrite endswith_suffix, chars_lower. split.
  - intros [k Hk]. apply fmap_app_inv in Hk as (l1 & l2 & _ & Hext & Hf).
    exists (String.string_of_list_ascii l1), (String.string_of_list_ascii l2). split.
    + apply chars_inj. rewrite chars_app. unfold chars at 2 3.
      rewrite !String.list_ascii_of_string_of_list_ascii. exact Hf.
    + apply chars_inj. rewrite chars_lower. unfold chars at 1.
      rewrite String.list_ascii_of_string_of_list_ascii. symmetry. exact Hext.
  - intros (stem & ext & -> & Hext). rewrite chars_app, map_app.
    exists (map lower_ascii (chars stem)). rewrite <- (chars_lower ext), Hext. reflexivity.
Qed.

(** X2: distinct job ids never share a transient file. *)
Theorem file_path_of_inj (a b : string) :
  file_path_of a = file_path_of b -> a = b.
Proof.
  intros H. apply (f_equal chars) in H. unfold file_path_of in H.
  rewrite !chars_app in H. apply app_inv_head in H. apply app_inv_tail in H.
  apply chars_inj, H.
Qed.

Lemma file_path_of_inj_witness :
  file_path_of "j1" = file_path_of "j1" /\ "j1" = "j1".
Proof.
  split; [reflexivity|]. apply (file_path_of_inj "j1" "j1"). reflexivity.
Defined.

Lemma strip_from_clean (len : string -> nat) :
  len "" = 0%nat ->
  forall s skip, len (strip_from len skip s) = 0%nat.
Proof.
  intros H0. induction s as [|a s IH]; intros skip; [exact H0|].
  cbn [strip_from]. destruct skip; [|apply IH].
  destruct (len (String a s)) eqn:E; [exact E | apply IH].
Qed.

Lemma strip_from_fixed (len : string -> nat) (s : string) :
  len s = 0%nat -> strip_from len 0 s = s.
Proof.
  destruct s as [|a s]; [reflexivity|]. cbn [strip_from].
  intros ->. reflexivity.
Qed.

Lemma strip_from_suffix (len : string -> nat) :
  forall s skip, exists pre, s = pre +:+ strip_from len skip s.
Proof.
  induction s as [|a s IH]; intros skip; [exists ""; reflexivity|].
  cbn [strip_from].
  assert (Hdrop : forall k, exists pre, String a s = pre +:+ strip_from len k s).
  { intros k. destruct (IH k) as [pre Hpre]. exists (String a pre).
    change (String a s = String a (pre +:+ strip_from len k s)).
    f_equal. exact Hpre. }
  destruct skip; [|apply Hdrop].
  destruct (len (String a s)); [exists ""; reflexivity | apply Hdrop].
Qed.

(** A string that begins with a white-space character still does so when
    more is appended. *)
Lemma space_len_prefix (p q : string) :
  space_len (p +:+ q) = 0%nat -> space_len p = 0%nat.
Proof.
  destruct p as [|c0 [|c1 [|c2 p]]]; [reflexivity|..].
  - change (String c0 "" +:+ q) with (String c0 q). cbn [space_len].
    destruct (is_space c0); [discriminate | reflexivity].
  - change (String c0 (String c1 "") +:+ q) with (String c0 (String c1 q)).
    cbn [space_len]. destruct (is_space c0); [discriminate|].
    destruct (space2 c0 c1); [discriminate | reflexivity].
  - change (String c0 (String c1 (String c2 p)) +:+ q)
      with (String c0 (String c1 (String c2 (p +:+ q)))).
    cbn [space_len]. intros H. exact H.
Qed.

Lemma lstrip_starts_clean (s : string) : starts_clean (lstrip s).
Proof. apply (strip_from_clean space_len eq_refl). Qed.

Lemma strip_clean (s : string) : starts_clean (strip s) /\ ends_clean (strip s).
Proof.
  unfold strip, rstrip, ends_clean, starts_clean. rewrite rev_involutive.
  split; [|apply (strip_from_clean space_len_rev eq_refl)].
  pose proof (lstrip_starts_clean s) as Hu. unfold starts_clean in Hu.
  destruct (strip_from_suffix space_len_rev (String.rev (lstrip s)) 0)
    as [pre Hpre].
  apply (f_equal String.rev) in Hpre. rewrite rev_involutive, rev_append in Hpre.
  rewrite Hpre in Hu. apply space_len_prefix in Hu. exact Hu.
Qed.

Lemma strip_fixed (s : string) : starts_clean s -> ends_clean s -> strip s = s.
Proof.
  intros H1 H2. unfold strip, rstrip, lstrip.
  rewrite (strip_from_fixed _ s H1), (strip_from_fixed _ _ H2).
  apply rev_involutive.
Qed.

(** X3: the query that is stored and passed on is never empty and carries
    no white space at either end: it is the standard prompt when the input
    is empty or all white space and the stripped input otherwise, and
    normalising it again changes nothing. *)
Theorem normalize_query_normal (qry : string) :
  normalize_query qry <> ""
  /\ starts_clean (normalize_query qry) /\ ends_clean (normalize_query qry)
  /\ normalize_query qry
     = (if String.eqb (strip qry) "" then DEFAULT_QUERY else strip qry)
  /\ normalize_query (normalize_query qry) = normalize_query qry.
Proof.
  assert (Hshape : normalize_query qry
                   = if String.eqb (strip qry) "" then DEFAULT_QUERY else strip qry).
  { unfold normalize_query. destruct (String.eqb qry "") eqn:E1.
    - apply String.eqb_eq in E1. subst qry. reflexivity.
    - simpl. destruct (String.eqb (strip qry) ""); reflexivity. }
  assert (Hne : normalize_query qry <> "").
  { rewrite Hshape. destruct (String.eqb (strip qry) "") eqn:E.
    - discriminate.
    - apply String.eqb_neq, E. }
  assert (Hclean : starts_clean (normalize_query qry)
                   /\ ends_clean (normalize_query qry)).
  { rewrite Hshape. destruct (String.eqb (strip qry) "").
    - split; reflexivity.
    - apply strip_clean. }
  split; [exact Hne|]. split; [apply Hclean|]. split; [apply Hclean|].
  split; [exact Hshape|].
  destruct Hclean as [Hs He].
  pose proof (strip_fixed _ Hs He) as Hfix.
  unfold normalize_query at 1. rewrite Hfix.
  apply String.eqb_neq in Hne. rewrite Hne. simpl. exact Hfix.
Qed.

(** White space beyond ASCII counts: a query of one no-break space (U+00A0)
    or one ideographic space (U+3000) is blank, and an em space (U+2003) at
    an end is stripped. *)
Example normalize_query_unicode :
  normalize_query (String "194"%char (String "160"%char "")) = DEFAULT_QUERY
  /\ normalize_query (String "227"%char (String "128"%char (String "128"%char "")))
     = DEFAULT_QUERY
  /\ normalize_query
       ("Is it solvent?"
        +:+ String "226"%char (String "128"%char (String "131"%char "")))
     = "Is it solvent?".
Proof. repeat split. Qed.

(** ** The table under the handlers and the worker *)

Lemma db_update_absent (j : string) (f : AnalysisRecord -> AnalysisRecord)
    (s : Store) :
  db_get j s = None -> db_update j f s = s.
Proof.
  induction s as [|x s IH]; simpl; [reflexivity|].
  destruct (String.eqb (id x) j); [discriminate|].
  intros H. rewrite (IH H). reflexivity.
Qed.

Lemma same_job_refl (r : AnalysisRecord) : same_job r r.
Proof. repeat split. Qed.

Lemma same_job_trans (r1 r2 r3 : AnalysisRecord) :
  same_job r1 r2 -> same_job r2 r3 -> same_job r1 r3.
Proof. unfold same_job. intros (?&?&?&?) (?&?&?&?). repeat split; congruence. Qed.

(** Whatever the task does to the table is an update of its own job's row
    that leaves the immutable columns alone. *)
Lemma task_store_shape (e : Env) (d : Delivery) (w : World) :
  exists f,
    (forall r, same_job r (f r))
    /\ store (snd (analyze_document_task e d w))
       = db_update (d_task_id d) f (store w).
Proof.
  destruct (db_get (d_task_id d) (store w)) as [r|] eqn:Hrow.
  - destruct (kickoff e (d_task_id d) (d_retries d)) as [res|exc] eqn:Hk.
    + pose proof (task_found_ok e d w r Hrow res Hk) as H. cbv zeta in H.
      destruct (analyze_document_task e d w) as [out w'].
      destruct H as (_ & Hst & _). eexists. split; [|exact Hst].
      intros x. repeat split.
    + pose proof (task_found_fail e d w r Hrow exc Hk) as H. cbv zeta in H.
      destruct (analyze_document_task e d w) as [out w'].
      destruct H as (Hst & _). eexists. split; [|exact Hst].
      intros x. repeat split.
  - pose proof (task_absent e d w Hrow) as H.
    destruct (analyze_document_task e d w) as [out w'].
    destruct H as (Hst & _). exists (fun r => r). split; [apply same_job_refl|].
    simpl. rewrite Hst, db_update_absent by exact Hrow. reflexivity.
Qed.

(** The outcome of the task and what it leaves on the queue. *)
Lemma task_queue_shape (e : Env) (d : Delivery) (w : World) :
  let '(out, w') := analyze_document_task e d w in
  out = outcome_of e d
  /\ queue w' = (queue w ++ match out with
                            | TaskRetry d' => [d']
                            | _ => []
                            end)%list.
Proof.
  unfold outcome_of.
  destruct (db_get (d_task_id d) (store w)) as [r|] eqn:Hrow.
  - destruct (kickoff e (d_task_id d) (d_retries d)) as [res|exc] eqn:Hk.
    + pose proof (task_found_ok e d w r Hrow res Hk) as H. cbv zeta in H.
      destruct (analyze_document_task e d w) as [out w'].
      destruct H as (-> & _ & _ & Hq & _). rewrite app_nil_r. auto.
    + pose proof (task_found_fail e d w r Hrow exc Hk) as H. cbv zeta in H.
      destruct (analyze_document_task e d w) as [out w'].
      destruct H as (_ & _ & _ & _ & H).
      destruct (2 <? S (d_retries d))%nat; destruct H as (-> & Hq & _);
        rewrite ?app_nil_r; auto.
  - pose proof (task_absent e d w Hrow) as H.
    destruct (analyze_document_task e d w) as [out w'].
    destruct H as (_ & _ & H).
    destruct (kickoff e (d_task_id d) (d_retries d)) as [res|exc].
    + destruct H as (-> & Hq & _). rewrite app_nil_r. auto.
    + destruct (2 <? S (d_retries d))%nat; destruct H as (-> & Hq & _);
        rewrite ?app_nil_r; auto.
Qed.

Lemma db_get_update_same_job (i j : string)
    (f : AnalysisRecord -> AnalysisRecord) (s : Store) (r : AnalysisRecord) :
  (forall x, same_job x (f x)) ->
  db_get j s = Some r ->
  exists r', db_get j (db_update i f s) = Some r'
             /\ same_job r r' /\ (i <> j -> r' = r).
Proof.
  intros Hf Hr. destruct (decide (i = j)) as [->|Hne].
  - exists (f r). rewrite db_get_update_eq by (intros x; apply Hf).
    rewrite Hr. split; [reflexivity|]. split; [apply Hf | congruence].
  - exists r. rewrite db_get_update_ne by (try (intros x; apply Hf); congruence).
    split; [exact Hr|]. split; [apply same_job_refl | reflexivity].
Qed.

(** X4: however many jobs are queued and however they end, the worker adds no
    row and deletes none, leaves id, filename, query and created_at of every
    row as they were, and leaves the row of a job it did not run untouched. *)
Theorem worker_keeps_rows (e : Env) (fuel : nat) :
  forall (w w' : World) (tr : list (World * Delivery * TaskOutcome)),
    run_worker fuel e w = Some (tr, w') ->
    map id (store w') = map id (store w)
    /\ forall j r,
         db_get j (store w) = Some r ->
         exists r',
           db_get j (store w') = Some r'
           /\ same_job r r'
           /\ (Forall (fun x => d_task_id (snd (fst x)) <> j) tr -> r' = r).
Proof.
  induction fuel as [|fuel IH]; intros w w' tr Hrun; simpl in Hrun.
  - destruct (queue w); [|discriminate]. injection Hrun as <- <-.
    split; [reflexivity|]. intros j r Hr. exists r.
    split; [exact Hr|]. split; [apply same_job_refl | reflexivity].
  - destruct (queue w) as [|d q].
    { injection Hrun as <- <-.
      split; [reflexivity|]. intros j r Hr. exists r.
      split; [exact Hr|]. split; [apply same_job_refl | reflexivity]. }
    destruct (task_store_shape e d (set_queue q w)) as (f & Hf & Hst).
    destruct (analyze_document_task e d (set_queue q w)) as [out w1] eqn:Ht.
    destruct (run_worker fuel e w1) as [[tr1 w2]|] eqn:Hrest; [|discriminate].
    injection Hrun as <- <-. simpl in Hst.
    destruct (IH _ _ _ Hrest) as [Hids Hrows]. split.
    + rewrite Hids, Hst. apply db_update_ids. intros x. apply Hf.
    + intros j r Hr.
      destruct (db_get_update_same_job (d_task_id d) j f _ r Hf Hr)
        as (r1 & Hr1 & Hs1 & He1).
      rewrite <- Hst in Hr1.
      destruct (Hrows j r1 Hr1) as (r2 & Hr2 & Hs2 & He2).
      exists r2. split; [exact Hr2|]. split; [eapply same_job_trans; eassumption|].
      intros Hall. apply Forall_cons in Hall as [Hd Hall]. simpl in Hd.
      rewrite (He2 Hall). apply He1, Hd.
Qed.

Lemma worker_keeps_rows_witness :
  let e := demo_env true None crew_fails_once rm_ok in
  let w1 := snd (analyze_document_async e "report.pdf" "%PDF-1.4" "" empty_world) in
  exists tr w2,
    run_worker 3 e w1 = Some (tr, w2)
    /\ map id (store w2) = map id (store w1).
Proof.
  eexists _, _. split; [vm_compute; reflexivity|].
  eapply (worker_keeps_rows (demo_env true None crew_fails_once rm_ok) 3).
  vm_compute. reflexivity.
Defined.

Lemma queue_budget_app (q1 q2 : list Delivery) :
  queue_budget (q1 ++ q2) = (queue_budget q1 + queue_budget q2)%nat.
Proof.
  induction q1 as [|d q1 IH]; simpl; [reflexivity|]. rewrite IH. lia.
Qed.

(** X5: the worker drains every queue.  With one unit of fuel per attempt that
    the retry budget still allows the deliveries in the queue, it stops with
    the queue empty, having made at least one attempt per delivery and no
    more than that budget. *)
Theorem worker_drains_queue (e : Env) (fuel : nat) :
  forall w : World,
    (queue_budget (queue w) <= fuel)%nat ->
    exists tr w',
      run_worker fuel e w = Some (tr, w')
      /\ queue w' = []
      /\ (length (queue w) <= length tr <= queue_budget (queue w))%nat.
Proof.
  induction fuel as [|fuel IH]; intros w Hfuel.
  - destruct (queue w) as [|d q] eqn:Hq.
    + exists [], w. simpl. rewrite Hq. repeat split; simpl; lia.
    + simpl in Hfuel. unfold attempts_left in Hfuel. lia.
  - simpl. destruct (queue w) as [|d q] eqn:Hq.
    { exists [], w. repeat split; simpl; try lia. exact Hq. }
    pose proof (task_queue_shape e d (set_queue q w)) as Hshape.
    destruct (analyze_document_task e d (set_queue q w)) as [out w1] eqn:Ht.
    destruct Hshape as (Hout & Hq1). simpl in Hq1.
    assert (Hb : (S (queue_budget (queue w1)) <= queue_budget (d :: q))%nat
                 /\ (length q <= length (queue w1))%nat).
    { rewrite Hq1, queue_budget_app, length_app. simpl.
      unfold outcome_of in Hout.
      destruct (kickoff e (d_task_id d) (d_retries d)) as [res|exc].
      - subst out. simpl. unfold attempts_left. lia.
      - destruct (2 <? S (d_retries d))%nat eqn:Hlt; subst out; simpl.
        + unfold attempts_left. lia.
        + apply Nat.ltb_ge in Hlt. unfold attempts_left. simpl. lia. }
    destruct Hb as [Hb Hl].
    destruct (IH w1) as (tr & w' & Hrun & Hq' & Hlen); [lia|].
    rewrite Hrun. exists ((set_queue q w, d, out) :: tr), w'.
    split; [reflexivity|]. split; [exact Hq'|]. simpl length. lia.
Qed.

Lemma worker_drains_queue_witness :
  let e := demo_env true None crew_fails rm_ok in
  let w1 := snd (analyze_document_async e "report.pdf" "%PDF-1.4" "" empty_world) in
  (queue_budget (queue w1) <= 3)%nat
  /\ exists tr w',
       run_worker 3 e w1 = Some (tr, w')
       /\ queue w' = []
       /\ (length (queue w1) <= length tr <= queue_budget (queue w1))%nat.
Proof.
  split; [vm_compute; lia|].
  apply (worker_drains_queue (demo_env true None crew_fails rm_ok) 3).
  vm_compute. lia.
Defined.

Lemma commit_update_ids (j : string) (f : AnalysisRecord -> AnalysisRecord)
    (w : World) :
  (forall r, id (f r) = id r) ->
  map id (store (commit_update j f w)) = map id (store w).
Proof.
  intros Hf. unfold commit_update.
  destruct (db_get j (store w)); [|reflexivity]. simpl.
  apply db_update_ids, Hf.
Qed.

Lemma NoDup_ids_add (r : AnalysisRecord) (s : Store) :
  db_get (id r) s = None ->
  NoDup (map id s) -> NoDup (map id (s ++ [r])).
Proof.
  intros Hfresh Hnd. rewrite map_app. apply NoDup_app.
  split; [exact Hnd|]. split; [|apply NoDup_singleton].
  intros x Hx Hin. apply list_elem_of_singleton in Hin. subst x.
  apply db_get_None_not_in in Hfresh. contradiction.
Qed.

Lemma db_delete_ids_sublist (j : string) (s : Store) :
  map id (db_delete j s) `sublist_of` map id s.
Proof.
  induction s as [|x s IH]; simpl; [reflexivity|].
  destruct (String.eqb (id x) j); simpl.
  - apply sublist_cons, reflexivity.
  - apply sublist_skip, IH.
Qed.

Lemma db_get_delete_ne (j k : string) (s : Store) :
  k <> j -> db_get k (db_delete j s) = db_get k s.
Proof.
  intros Hne. induction s as [|x s IH]; simpl; [reflexivity|].
  destruct (String.eqb (id x) j) eqn:E; simpl.
  - apply String.eqb_eq in E.
    destruct (String.eqb (id x) k) eqn:E'; [|reflexivity].
    apply String.eqb_eq in E'. congruence.
  - destruct (String.eqb (id x) k); [reflexivity | exact IH].
Qed.

Lemma db_get_delete_eq (j : string) (s : Store) :
  NoDup (map id s) -> db_get j (db_delete j s) = None.
Proof.
  induction s as [|x s IH]; simpl; [reflexivity|].
  intros Hnd. apply NoDup_cons in Hnd as [Hx Hnd].
  destruct (String.eqb (id x) j) eqn:E; simpl.
  - apply String.eqb_eq in E. subst j. apply db_get_None_not_in, Hx.
  - rewrite E. apply IH, Hnd.
Qed.

Lemma db_delete_length (j : string) (s : Store) (r : AnalysisRecord) :
  db_get j s = Some r -> S (length (db_delete j s)) = length s.
Proof.
  induction s as [|x s IH]; simpl; [discriminate|].
  destruct (String.eqb (id x) j); [reflexivity|].
  intros H. simpl. rewrite (IH H). reflexivity.
Qed.

(** X6: the primary key.  If no two rows share an id, the same is true after
    a sync submission, an async submission, a run of the worker task and a
    deletion, whatever their inputs and whatever the surroundings do - also
    when the id drawn for a submission is already taken. *)
Theorem primary_key_kept (e : Env) (file_name content qry j : string)
    (d : Delivery) (w : World) :
  NoDup (map id (store w)) ->
  NoDup (map id (store (snd (analyze_document e file_name content qry w))))
  /\ NoDup (map id (store (snd (analyze_document_async e file_name content qry w))))
  /\ NoDup (map id (store (snd (analyze_document_task e d w))))
  /\ NoDup (map id (snd (delete_analysis j (store w)))).
Proof.
  intros Hnd. split; [|split; [|split]].
  - unfold analyze_document. destruct (is_pdf file_name); [|exact Hnd].
    unfold sync_try. destruct (write_err e) as [exc|].
    + cbn -[cleanup]. rewrite cleanup_store. unfold sync_except.
      destruct (db_get (uuid4 e) (store w)); [|exact Hnd].
      cbn -[commit_update]. rewrite commit_update_ids by reflexivity. exact Hnd.
    + cbn -[cleanup commit_update db_add]. unfold db_add. cbn -[cleanup commit_update].
      destruct (db_get (uuid4 e) (store w)) as [r0|] eqn:Hget.
      * cbn -[cleanup commit_update]. rewrite cleanup_store. exact Hnd.
      * pose proof (NoDup_ids_add
                      (mkRecord (uuid4 e) file_name (normalize_query qry) processing
                         None None (clock e (S (ticks w))) None None)
                      (store w) Hget Hnd) as Hnd'.
        destruct (kickoff e (uuid4 e) 0) as [res|exc];
          cbn -[cleanup commit_update]; rewrite cleanup_store.
        -- rewrite commit_update_ids by reflexivity. exact Hnd'.
        -- match goal with
           | |- context [match ?x with Some _ => _ | None => _ end] => destruct x
           end; [rewrite commit_update_ids by reflexivity|]; exact Hnd'.
  - unfold analyze_document_async.
    destruct (worker_importable e); [|exact Hnd].
    destruct (is_pdf file_name); [|exact Hnd].
    destruct (write_err e); [exact Hnd|].
    unfold db_add. cbn.
    destruct (db_get (uuid4 e) (store w)) as [r0|] eqn:Hget; [exact Hnd|].
    destruct (broker_err e); cbn;
      apply (NoDup_ids_add (mkRecord _ _ _ _ _ _ _ _ _)); assumption.
  - destruct (task_store_shape e d w) as (f & Hf & ->).
    rewrite db_update_ids by (intros x; apply Hf). exact Hnd.
  - unfold delete_analysis. destruct (db_get j (store w)); [|exact Hnd].
    simpl. eapply sublist_NoDup; [exact Hnd | apply db_delete_ids_sublist].
Qed.

Lemma primary_key_kept_witness :
  NoDup (map id three_jobs)
  /\ NoDup (map id (snd (delete_analysis "b" three_jobs))).
Proof.
  assert (H : NoDup (map id three_jobs)).
  { apply (bool_decide_unpack _). vm_compute. exact I. }
  split; [exact H|].
  apply (primary_key_kept (demo_env true None crew_ok rm_ok) "a.pdf" "" "" "b"
           (mkDelivery "a" "" "" 0 0) (mkWorld three_jobs ∅ [] 0 [])).
  exact H.
Defined.

(** ** Status, detail and deletion *)

Lemma selected_elem (st : option string) (s : Store) (r : AnalysisRecord) :
  r ∈ selected st s ->
  r ∈ s /\ forall t, st = Some t -> t <> "" -> status_str (status r) = t.
Proof.
  destruct st as [t|]; simpl.
  - destruct (String.eqb t "") eqn:E.
    + intros H. split; [exact H|]. intros t' [= <-] Hne.
      apply String.eqb_neq in Hne. congruence.
    + intros H. apply list_elem_of_In, List.filter_In in H as [Hin Hf].
      split; [apply list_elem_of_In, Hin|].
      intros t' [= <-] _. apply String.eqb_eq, Hf.
  - intros H. split; [exact H|]. intros t' Ht. discriminate Ht.
Qed.

Lemma history_records_elem (limit : Z) (st : option string) (s : Store)
    (rec : Summary) :
  rec ∈ history_records (get_analysis_history limit st s) ->
  exists r, r ∈ selected st s /\ rec = summary_of r.
Proof.
  rewrite history_reply. cbv zeta.
  destruct (Z.min limit 100 <? INT64_MIN); simpl; [intros H; inversion H|].
  intros H. apply list_elem_of_fmap in H as (r & -> & Hr).
  exists r. split; [|reflexivity].
  destruct (Z.min limit 100 <? 0).
  - rewrite order_by_perm in Hr. exact Hr.
  - apply elem_of_take in Hr as (i & Hi & _).
    apply list_elem_of_lookup_2 in Hi. rewrite order_by_perm in Hi. exact Hi.
Qed.

(** X7: deleting a job that has a row removes that row and nothing else: the
    confirmation is returned, the status and detail endpoints and a second
    deletion then answer 404, the history no longer lists the job, and every
    other row is as before. *)
Theorem delete_removes_the_job (j : string) (s : Store) (r : AnalysisRecord) :
  NoDup (map id s) ->
  db_get j s = Some r ->
  let '(reply, s') := delete_analysis j s in
  reply = ReplyOk {[ "message" :=
                       VStr ("Analysis '" +:+ j +:+ "' deleted successfully.") ]}
  /\ S (length s') = length s
  /\ (forall k, k <> j -> db_get k s' = db_get k s)
  /\ get_task_status j s' = ReplyError 404 ("Task '" +:+ j +:+ "' not found.")
  /\ get_analysis_by_id j s'
     = ReplyError 404 ("Analysis '" +:+ j +:+ "' not found.")
  /\ delete_analysis j s'
     = (ReplyError 404 ("Analysis '" +:+ j +:+ "' not found."), s')
  /\ (forall limit st,
        j ∉ map s_task_id (history_records (get_analysis_history limit st s'))).
Proof.
  intros Hnd Hr. unfold delete_analysis at 1. rewrite Hr.
  pose proof (db_get_delete_eq j s Hnd) as Hgone.
  split; [reflexivity|]. split; [apply (db_delete_length j s r Hr)|].
  split; [intros k Hk; apply db_get_delete_ne, Hk|].
  unfold get_task_status, get_analysis_by_id, delete_analysis. rewrite Hgone.
  repeat split.
  intros limit st Hin. apply list_elem_of_fmap in Hin as (rec & Hj & Hin).
  apply history_records_elem in Hin as (x & Hx & ->).
  apply selected_elem in Hx as [Hx _].
  apply db_get_None_not_in in Hgone. apply Hgone.
  apply list_elem_of_fmap. exists x. split; [exact Hj | exact Hx].
Qed.

Lemma delete_removes_the_job_witness :
  NoDup (map id three_jobs)
  /\ db_get "b" three_jobs = Some (job_at "b" processing 30)
  /\ get_task_status "b" (snd (delete_analysis "b" three_jobs))
     = ReplyError 404 "Task 'b' not found.".
Proof.
  assert (H : NoDup (map id three_jobs))
    by (apply (bool_decide_unpack _); vm_compute; exact I).
  split; [exact H|]. split; [reflexivity|].
  pose proof (delete_removes_the_job "b" three_jobs (job_at "b" processing 30)
                H eq_refl) as Hd.
  destruct (delete_analysis "b" three_jobs) as [reply s'].
  destruct Hd as (_ & _ & _ & Hstatus & _). exact Hstatus.
Defined.

(** X8: what the status endpoint shows of a row.  It answers 404 exactly when
    there is no row.  When it answers with a body, the body carries the
    row's status, and an ["analysis"] entry exactly when that status is
    completed and an ["error"] entry exactly when it is failed - never both,
    whatever the row itself holds. *)
Theorem status_shows_by_status (j : string) (s : Store) :
  (db_get j s = None <->
   get_task_status j s = ReplyError 404 ("Task '" +:+ j +:+ "' not found."))
  /\ forall body,
       get_task_status j s = ReplyOk body ->
       exists r,
         db_get j s = Some r
         /\ body !! "task_id" = Some (VStr j)
         /\ body !! "status" = Some (VStr (status_str (status r)))
         /\ body !! "analysis"
            = (if decide (status r = completed) then Some (opt_str (result r))
               else None)
         /\ body !! "error"
            = (if decide (status r = failed) then Some (opt_str (error r))
               else None).
Proof.
  unfold get_task_status. destruct (db_get j s) as [r|] eqn:Hr.
  - split.
    + split; [discriminate|]. intros H.
      destruct (status r); [discriminate..| |discriminate].
      destruct (completed_at r); discriminate.
    + intros body Hbody. exists r. split; [reflexivity|].
      destruct (status r) eqn:Hs.
      * injection Hbody as <-. repeat split.
      * injection Hbody as <-. repeat split.
      * destruct (completed_at r); [|discriminate].
        injection Hbody as <-. repeat split.
      * injection Hbody as <-. repeat split.
  - split; [split; reflexivity|]. intros body H. discriminate H.
Qed.

Lemma status_shows_by_status_witness :
  exists body r,
    get_task_status "b" three_jobs = ReplyOk body
    /\ db_get "b" three_jobs = Some r
    /\ body !! "status" = Some (VStr (status_str (status r))).
Proof.
  destruct (proj2 (status_shows_by_status "b" three_jobs) _ eq_refl)
    as (r & Hr & _ & Hs & _).
  eexists _, r. split; [|split; [exact Hr | exact Hs]]. reflexivity.
Defined.

(** The row as the last attempt leaves it, with its completion stamp. *)
Lemma job_run_final_stamped (e : Env) d w tr w2 :
  job_run e d w tr w2 ->
  exists r2,
    db_get (d_task_id d) (store w2) = Some r2
    /\ is_set (completed_at r2) = true
    /\ match kickoff e (d_task_id d) (d_retries d + length tr - 1) with
       | inl res => status r2 = completed /\ result r2 = Some res
       | inr exc => status r2 = failed /\ error r2 = Some exc
       end.
Proof.
  induction 1 as [d w r res w' Hq Hrow Hk Ht
                 |d w r exc w' Hq Hrow Hk Hb Ht
                 |d w r exc w' tr w'' Hq Hrow Hk Hb Ht Hrun IH]; simpl length.
  - attempt_facts e d w r Hrow Hk Ht H.
    destruct H as (_ & _ & Hrow' & _).
    replace (d_retries d + 1 - 1)%nat with (d_retries d) by lia.
    rewrite Hk. eexists. split; [exact Hrow'|]. repeat split.
  - attempt_facts e d w r Hrow Hk Ht H.
    destruct H as (_ & Hrow' & _).
    replace (d_retries d + 1 - 1)%nat with (d_retries d) by lia.
    rewrite Hk. eexists. split; [exact Hrow'|]. repeat split.
  - pose proof (job_run_length _ _ _ _ _ Hrun) as [Hpos _].
    simpl in IH.
    replace (d_retries d + S (length tr) - 1)%nat
      with (S (d_retries d) + length tr - 1)%nat by lia.
    exact IH.
Qed.

(** X9: polling an async job.  Right after an accepted async submission the
    status endpoint shows the job as queued, with neither analysis nor
    error.  Once the worker has come to rest it shows what the last attempt
    did: completed with that attempt's report and no error entry - also
    after failed attempts before it - or failed with that attempt's
    message and no analysis entry. *)
Theorem poll_async_job (e : Env) (file_name content qry : string) (w : World) :
  db_get (uuid4 e) (store w) = None ->
  queue w = [] ->
  worker_importable e = true ->
  is_pdf file_name = true ->
  write_err e = None ->
  broker_err e = None ->
  let w1 := snd (analyze_document_async e file_name content qry w) in
  (exists body,
     get_task_status (uuid4 e) (store w1) = ReplyOk body
     /\ body !! "status" = Some (VStr "queued")
     /\ body !! "analysis" = None /\ body !! "error" = None)
  /\ exists tr w2 body,
       run_worker 3 e w1 = Some (tr, w2)
       /\ get_task_status (uuid4 e) (store w2) = ReplyOk body
       /\ match kickoff e (uuid4 e) (length tr - 1) with
          | inl res =>
              body !! "status" = Some (VStr "completed")
              /\ body !! "analysis" = Some (VStr res)
              /\ body !! "error" = None
          | inr exc =>
              body !! "status" = Some (VStr "failed")
              /\ body !! "error" = Some (VStr exc)
              /\ body !! "analysis" = None
          end.
Proof.
  intros Hfresh Hq Himp Hpdf Hwr Hbr.
  pose proof (async_then_worker e file_name content qry w
                Hfresh Hq Himp Hpdf Hwr Hbr) as H.
  cbv zeta in H. cbv zeta.
  set (w1 := snd (analyze_document_async e file_name content qry w)) in *.
  destruct H as (Hst & _ & _ & tr & w2 & Hrun & _ & Hjr).
  split.
  - eexists. unfold get_task_status. rewrite Hst.
    rewrite (db_get_app_fresh (mkRecord (uuid4 e) _ _ _ _ _ _ _ _) _ Hfresh).
    simpl. repeat split.
  - destruct (job_run_final_stamped e _ _ _ _ Hjr) as (r2 & Hr2 & Hstamp & Hfin).
    simpl in Hr2, Hfin.
    exists tr, w2. unfold get_task_status. rewrite Hr2.
    destruct (completed_at r2) as [t|]; [|discriminate Hstamp].
    destruct (kickoff e (uuid4 e) (length tr - 1)) as [res|exc];
      destruct Hfin as [Hs Hv]; rewrite Hs;
      eexists; (split; [exact Hrun|]); (split; [reflexivity|]);
      rewrite ?Hv; repeat split.
Qed.

Lemma poll_async_job_witness :
  let e := demo_env true None crew_fails_once rm_ok in
  (db_get (uuid4 e) (store empty_world) = None
   /\ queue empty_world = []
   /\ worker_importable e = true
   /\ is_pdf "report.pdf" = true
   /\ write_err e = None
   /\ broker_err e = None)
  /\ exists body,
       get_task_status (uuid4 e)
         (store (snd (analyze_document_async e "report.pdf" "%PDF-1.4" ""
                        empty_world)))
       = ReplyOk body
       /\ body !! "status" = Some (VStr "queued")
       /\ body !! "analysis" = None /\ body !! "error" = None.
Proof.
  split; [repeat split|].
  apply (poll_async_job (demo_env true None crew_fails_once rm_ok)
           "report.pdf" "%PDF-1.4" "" empty_world); reflexivity.
Defined.

Lemma db_get_app_new (j : string) (r : AnalysisRecord) (s : Store) :
  id r = j -> db_get j s = None -> db_get j (s ++ [r]) = Some r.
Proof. intros <-. apply db_get_app_fresh. Qed.

(** X10: what a sync submission returns is what is kept.  For a PDF upload
    with a fresh id whose file is written: when the crew returns a report
    the reply is the success dict, and the detail endpoint then shows the
    job completed with the same analysis, query, filename and duration
    (the rounding of the time between the two clock readings); when the
    crew raises, the reply is a 500 whose detail ends in the message, and the
    detail endpoint shows the job failed with that message as its error and
    no analysis. *)
Theorem sync_reply_matches_detail (e : Env)
    (file_name content qry : string) (w : World) :
  is_pdf file_name = true ->
  db_get (uuid4 e) (store w) = None ->
  write_err e = None ->
  let '(resp, w') := analyze_document e file_name content qry w in
  exists body,
    get_analysis_by_id (uuid4 e) (store w') = ReplyOk body
    /\ body !! "task_id" = Some (VStr (uuid4 e))
    /\ body !! "filename" = Some (VStr file_name)
    /\ body !! "query" = Some (VStr (normalize_query qry))
    /\ match kickoff e (uuid4 e) 0 with
       | inl res =>
           exists dur,
             resp = SyncSuccess (uuid4 e) (normalize_query qry) res file_name dur
             /\ dur = round2 e (clock e (S (S (ticks w))) - clock e (ticks w))
             /\ body !! "status" = Some (VStr "completed")
             /\ body !! "analysis" = Some (VStr res)
             /\ body !! "error" = Some VNull
             /\ body !! "duration_seconds" = Some (VNum dur)
       | inr exc =>
           resp = HTTPException 500 ("Error processing document: " +:+ exc)
           /\ body !! "status" = Some (VStr "failed")
           /\ body !! "error" = Some (VStr exc)
           /\ body !! "analysis" = Some VNull
       end.
Proof.
  intros Hpdf Hfresh Hwr.
  pose proof (sync_fresh e file_name content qry w Hpdf Hfresh) as H.
  destruct (analyze_document e file_name content qry w) as [resp w'].
  rewrite Hwr in H. destruct H as (_ & _ & H).
  unfold get_analysis_by_id.
  destruct (kickoff e (uuid4 e) 0) as [res|exc]; cbv zeta in H;
    destruct H as (-> & -> & _);
    erewrite (db_get_app_new (uuid4 e)) by first [exact Hfresh | reflexivity];
    eexists; (split; [reflexivity|]); simpl; repeat split.
  eexists. split; [reflexivity|]. repeat split.
Qed.

Lemma sync_reply_matches_detail_witness :
  let e := demo_env true None crew_ok rm_ok in
  (is_pdf "report.pdf" = true
   /\ db_get (uuid4 e) (store empty_world) = None
   /\ write_err e = None)
  /\ exists body,
       get_analysis_by_id "j1"
         (store (snd (analyze_document e "report.pdf" "%PDF-1.4" "" empty_world)))
       = ReplyOk body
       /\ body !! "filename" = Some (VStr "report.pdf").
Proof.
  split; [repeat split|].
  pose proof (sync_reply_matches_detail (demo_env true None crew_ok rm_ok)
                "report.pdf" "%PDF-1.4" "" empty_world eq_refl eq_refl eq_refl) as H.
  destruct (analyze_document (demo_env true None crew_ok rm_ok)
              "report.pdf" "%PDF-1.4" "" empty_world) as [resp w'].
  destruct H as (body & Hb & _ & Hf & _).
  exists body. split; [exact Hb | exact Hf].
Defined.

(** ** More on the history list *)

Lemma cap_overflow (limit : Z) :
  (Z.min limit 100 <? INT64_MIN) = (limit <? INT64_MIN).
Proof.
  unfold INT64_MIN.
  destruct (limit <? - 2 ^ 63) eqn:E.
  - apply Z.ltb_lt in E. apply Z.ltb_lt. lia.
  - apply Z.ltb_ge in E. apply Z.ltb_ge. lia.
Qed.

(** The reply of a request whose rows all fit under the bound, or whose
    bound is negative. *)
Lemma history_reply_uncut (limit : Z) (st : option string) (s : Store) :
  INT64_MIN <= limit ->
  limit < 0 \/ Z.of_nat (length (selected st s)) <= Z.min limit 100 ->
  get_analysis_history limit st s
  = HistoryOk (Z.of_nat (length (selected st s)))
              (map summary_of (order_by_created_at_desc (selected st s))).
Proof.
  intros Hmin Hfit. rewrite history_reply. cbv zeta.
  rewrite cap_overflow.
  assert (Hge : (limit <? INT64_MIN) = false) by (apply Z.ltb_ge; lia).
  rewrite Hge.
  assert (Hlen : length (order_by_created_at_desc (selected st s))
                 = length (selected st s))
    by apply Permutation_length, order_by_perm.
  destruct (Z.min limit 100 <? 0) eqn:E.
  - rewrite Hlen. reflexivity.
  - apply Z.ltb_ge in E. destruct Hfit as [Hneg|Hfit]; [lia|].
    rewrite take_ge by (rewrite Hlen; lia).
    rewrite Hlen. reflexivity.
Qed.

(** X11: the status filter of the history, for a limit that SQLite can
    take (not below -2^63).  The request is answered with a list, never an
    error.  With a non-empty filter every record returned has exactly that
    status, a word that is no status yields total 0 and the empty list, and
    unless the limit cuts the list the records are those of all rows of the
    table with that status.  With the empty string as filter the answer is
    that of a request without filter, and unless the limit cuts the list the
    records are those of all rows of the table. *)
Theorem history_status_filter (limit : Z) (st : string) (s : Store) :
  INT64_MIN <= limit ->
  let with_status :=
    List.filter (fun r => String.eqb (status_str (status r)) st) s in
  exists records,
    get_analysis_history limit (Some st) s
    = HistoryOk (Z.of_nat (length records)) records
    /\ (st <> "" ->
        Forall (fun rec => s_status rec = st) records
        /\ ((forall x : Status, status_str x <> st) -> records = [])
        /\ (limit < 0 \/ Z.of_nat (length with_status) <= Z.min limit 100 ->
            records ≡ₚ map summary_of with_status))
    /\ (st = "" ->
        get_analysis_history limit None s
        = HistoryOk (Z.of_nat (length records)) records
        /\ (limit < 0 \/ Z.of_nat (length s) <= Z.min limit 100 ->
            records ≡ₚ map summary_of s)).
Proof.
  intros Hmin with_status.
  assert (Hge : (Z.min limit 100 <? INT64_MIN) = false)
    by (rewrite cap_overflow; apply Z.ltb_ge; lia).
  pose proof (history_reply limit (Some st) s) as Hreply. cbv zeta in Hreply.
  rewrite Hge in Hreply.
  set (rows := if Z.min limit 100 <? 0
               then order_by_created_at_desc (selected (Some st) s)
               else take (Z.to_nat (Z.min limit 100))
                         (order_by_created_at_desc (selected (Some st) s))) in *.
  exists (map summary_of rows).
  rewrite length_map. split; [exact Hreply|].
  assert (Hsub : forall r, r ∈ rows -> r ∈ selected (Some st) s).
  { intros r Hr. subst rows. destruct (Z.min limit 100 <? 0).
    - rewrite order_by_perm in Hr. exact Hr.
    - apply elem_of_take in Hr as (i & Hi & _).
      apply list_elem_of_lookup_2 in Hi. rewrite order_by_perm in Hi. exact Hi. }
  split.
  - intros Hne.
    assert (Hsel : selected (Some st) s = with_status).
    { simpl. apply String.eqb_neq in Hne. rewrite Hne. reflexivity. }
    assert (Hall : Forall (fun r => status_str (status r) = st) rows).
    { apply Forall_forall. intros r Hr. apply Hsub in Hr.
      apply selected_elem in Hr as [_ Hr]. apply (Hr st eq_refl Hne). }
    split; [|split].
    + apply Forall_fmap. eapply Forall_impl; [exact Hall|].
      intros r Hr. exact Hr.
    + intros Hno. destruct rows as [|r rows']; [reflexivity|].
      apply Forall_cons in Hall as [Hr _].
      exfalso. apply (Hno (status r)), Hr.
    + intros Hfit. rewrite <- Hsel in Hfit.
      pose proof (history_reply_uncut limit (Some st) s Hmin Hfit) as Hun.
      rewrite Hreply in Hun. injection Hun as _ ->.
      rewrite <- Hsel. apply fmap_Permutation, order_by_perm.
  - intros ->. split; [exact Hreply|].
    intros Hfit.
    pose proof (history_reply_uncut limit (Some "") s Hmin Hfit) as Hun.
    rewrite Hreply in Hun. injection Hun as _ ->.
    apply fmap_Permutation. apply (order_by_perm s).
Qed.

Lemma history_status_filter_witness :
  (INT64_MIN <= 20 /\ "queued" <> "")
  /\ exists records,
       get_analysis_history 20 (Some "queued") three_jobs = HistoryOk 2 records
       /\ records ≡ₚ [summary_of (job_at "a" queued 10);
                      summary_of (job_at "c" queued 20)].
Proof.
  split; [split; [vm_compute; discriminate | discriminate]|].
  destruct (history_status_filter 20 "queued" three_jobs)
    as (records & Hreply & Hne & _); [vm_compute; discriminate|].
  exists records.
  destruct Hne as (_ & _ & Hperm); [discriminate|].
  assert (Hp : records ≡ₚ [summary_of (job_at "a" queued 10);
                           summary_of (job_at "c" queued 20)])
    by (apply Hperm; right; vm_compute; discriminate).
  split; [|exact Hp].
  rewrite Hreply. apply Permutation_length in Hp. rewrite Hp. reflexivity.
Defined.

(** X12: a negative limit is not capped.  [min(limit, 100)] stays negative
    and is passed to the query unchecked.  Below -2^63 it cannot be bound as
    an SQLite integer and the request ends in an OverflowError; otherwise it
    means no bound, and the history returns every row that the filter
    selects, most recent first, however many there are. *)
Theorem history_negative_limit_returns_all (limit : Z) (st : option string)
    (s : Store) :
  limit < 0 ->
  if limit <? INT64_MIN
  then get_analysis_history limit st s = HistoryCrash OVERFLOW_ERROR
  else
    exists records,
      get_analysis_history limit st s
      = HistoryOk (Z.of_nat (length (selected st s))) records
      /\ records ≡ₚ map summary_of (selected st s)
      /\ StronglySorted summary_newer_first records.
Proof.
  intros Hneg. destruct (limit <? INT64_MIN) eqn:E.
  - rewrite history_reply. cbv zeta. rewrite cap_overflow, E. reflexivity.
  - apply Z.ltb_ge in E. eexists. split; [|split].
    + apply history_reply_uncut; [exact E | left; exact Hneg].
    + apply fmap_Permutation, order_by_perm.
    + apply StronglySorted_fmap with (R1 := newer_first).
      * intros a b Hab. exact Hab.
      * apply order_by_sorted.
Qed.

Lemma history_negative_limit_returns_all_witness :
  -1 < 0
  /\ exists records,
       get_analysis_history (-1) None (many_jobs 120) = HistoryOk 120 records.
Proof.
  split; [lia|].
  destruct (history_negative_limit_returns_all (-1) None (many_jobs 120)
              ltac:(lia)) as (records & Hreply & _).
  exists records. exact Hreply.
Defined.

(** ** More on async submission and on the task *)

(** X13: an accepted async submission hands the worker what it needs: the
    reply names the id, one delivery for that id is appended to the queue,
    it carries the query as stored in the row and the path under which the
    upload was written, the file at that path holds the uploaded bytes, and
    the row is queued with no result and no error. *)
Theorem async_accepted_is_consistent (e : Env)
    (file_name content qry : string) (w : World) :
  worker_importable e = true ->
  is_pdf file_name = true ->
  write_err e = None ->
  db_get (uuid4 e) (store w) = None ->
  broker_err e = None ->
  let '(resp, w') := analyze_document_async e file_name content qry w in
  exists d r,
    resp = AsyncQueued (uuid4 e)
             "Document queued for analysis. Poll /status/{task_id} for results."
             ("/status/" +:+ uuid4 e)
    /\ queue w' = (queue w ++ [d])%list
    /\ d_task_id d = uuid4 e /\ d_retries d = 0%nat
    /\ db_get (d_task_id d) (store w') = Some r
    /\ d_query d = query r /\ filename r = file_name
    /\ status r = queued /\ result r = None /\ error r = None
    /\ fs w' !! d_file_path d = Some content.
Proof.
  intros Himp Hpdf Hwr Hfresh Hbr.
  pose proof (async_fresh e file_name content qry w Himp Hpdf Hwr Hfresh) as H.
  cbv zeta in H.
  destruct (analyze_document_async e file_name content qry w) as [resp w'].
  rewrite Hbr in H. destruct H as (Hst & Hfs & -> & Hq & _).
  eexists _, _. split; [reflexivity|]. split; [exact Hq|].
  split; [reflexivity|]. split; [reflexivity|]. split.
  - rewrite Hst. apply db_get_app_new; [reflexivity | exact Hfresh].
  - simpl. repeat split. rewrite Hfs. apply lookup_insert_eq.
Qed.

Lemma async_accepted_is_consistent_witness :
  let e := demo_env true None crew_ok rm_ok in
  (worker_importable e = true /\ is_pdf "report.pdf" = true
   /\ write_err e = None /\ db_get (uuid4 e) (store empty_world) = None
   /\ broker_err e = None)
  /\ exists d,
       queue (snd (analyze_document_async e "report.pdf" "%PDF-1.4" "" empty_world))
       = [d]
       /\ d_task_id d = "j1".
Proof.
  split; [repeat split|].
  pose proof (async_accepted_is_consistent (demo_env true None crew_ok rm_ok)
                "report.pdf" "%PDF-1.4" "" empty_world
                eq_refl eq_refl eq_refl eq_refl eq_refl) as H.
  destruct (analyze_document_async (demo_env true None crew_ok rm_ok)
              "report.pdf" "%PDF-1.4" "" empty_world) as [resp w'].
  destruct H as (d & r & _ & Hq & Hid & _).
  exists d. split; [exact Hq | exact Hid].
Defined.

(** X14: whatever it is given, async submission never runs the crew and never
    removes a file, and its reply is the queued one exactly when it has put
    a delivery on the queue; in every other case the queue is as it was. *)
Theorem async_only_enqueues (e : Env) (file_name content qry : string)
    (w : World) :
  let '(resp, w') := analyze_document_async e file_name content qry w in
  kickoffs (events_since w w') = []
  /\ Forall (fun ev => match ev with EvRemove _ _ => False | _ => True end)
            (events_since w w')
  /\ ((exists d, queue w' = (queue w ++ [d])%list
                 /\ exists msg url, resp = AsyncQueued (d_task_id d) msg url)
      \/ (queue w' = queue w
          /\ forall i msg url, resp <> AsyncQueued i msg url)).
Proof.
  assert (Hrej : forall resp : Response,
            (forall i msg url, resp <> AsyncQueued i msg url) ->
            kickoffs (events_since w w) = []
            /\ Forall (fun ev => match ev with EvRemove _ _ => False | _ => True end)
                      (events_since w w)
            /\ ((exists d, queue w = (queue w ++ [d])%list
                           /\ exists msg url, resp = AsyncQueued (d_task_id d) msg url)
                \/ (queue w = queue w
                    /\ forall i msg url, resp <> AsyncQueued i msg url))).
  { intros resp Hresp. rewrite events_since_refl.
    split; [reflexivity|]. split; [constructor|]. right. split; [reflexivity|exact Hresp]. }
  unfold analyze_document_async.
  destruct (worker_importable e); [|apply Hrej; discriminate].
  destruct (is_pdf file_name); [|apply Hrej; discriminate].
  destruct (write_err e); [apply Hrej; discriminate|].
  clear Hrej. unfold db_add. cbn.
  destruct (db_get (uuid4 e) (store w)).
  - erewrite events_since_app by (cbn; reflexivity).
    split; [reflexivity|]. split; [repeat constructor|].
    right. split; [reflexivity|discriminate].
  - destruct (broker_err e); cbn.
    + erewrite events_since_app by (cbn; rewrite <- app_assoc; reflexivity).
      split; [reflexivity|]. split; [repeat constructor|].
      right. split; [reflexivity|discriminate].
    + erewrite events_since_app by (cbn; rewrite <- !app_assoc; reflexivity).
      split; [reflexivity|]. split; [repeat constructor|].
      left. eexists. split; [reflexivity|]. eexists _, _. reflexivity.
Qed.

(** X15: the task does not look at the status of the row it finds.  Delivered
    for a job whose row exists - queued, or already completed or failed - it
    first writes [processing] over it, and then: if the crew returns, the
    row ends completed with the new report, its earlier error left in place;
    if the crew raises, the row ends failed with the new message, its
    earlier result left in place.  Both ways the completion time and the
    duration are stamped. *)
Theorem task_overwrites_any_row (e : Env) (d : Delivery) (w : World)
    (r : AnalysisRecord) :
  db_get (d_task_id d) (store w) = Some r ->
  let w' := snd (analyze_document_task e d w) in
  exists r',
    db_get (d_task_id d) (store w') = Some r'
    /\ same_job r r'
    /\ commits (events_since w w') = [set_status processing r; r']
    /\ is_set (completed_at r') = true
    /\ is_set (duration_seconds r') = true
    /\ match kickoff e (d_task_id d) (d_retries d) with
       | inl res =>
           status r' = completed /\ result r' = Some res /\ error r' = error r
       | inr exc =>
           status r' = failed /\ error r' = Some exc /\ result r' = result r
       end.
Proof.
  intros Hrow.
  destruct (analyze_document_task e d w) as [out w'] eqn:Ht. cbn [snd].
  destruct (kickoff e (d_task_id d) (d_retries d)) as [res|exc] eqn:Hk.
  - attempt_facts e d w r Hrow Hk Ht H.
    destruct H as (_ & _ & Hrow' & _ & _ & _ & Hlog).
    eexists. split; [exact Hrow'|].
    rewrite (events_since_app _ _ _ Hlog), commits_app, commits_cleanup.
    repeat split.
  - attempt_facts e d w r Hrow Hk Ht H.
    destruct H as (_ & Hrow' & _ & _ & Hcase).
    eexists. split; [exact Hrow'|].
    destruct (2 <? S (d_retries d))%nat; destruct Hcase as (_ & _ & Hlog);
      rewrite (events_since_app _ _ _ Hlog), commits_app, commits_cleanup;
      repeat split.
Qed.

Lemma task_overwrites_any_row_witness :
  let e := demo_env true None crew_fails rm_ok in
  let r := mkRecord "a" "report.pdf" DEFAULT_QUERY completed (Some "old report")
                    None 10 (Some 20) (Some 100) in
  let d := mkDelivery "a" DEFAULT_QUERY (file_path_of "a") 0 0 in
  let w := mkWorld [r] ∅ [] 0 [] in
  db_get (d_task_id d) (store w) = Some r
  /\ exists r',
       db_get "a" (store (snd (analyze_document_task e d w))) = Some r'
       /\ status r' = failed /\ error r' = Some "boom"
       /\ result r' = Some "old report".
Proof.
  split; [reflexivity|].
  destruct (task_overwrites_any_row (demo_env true None crew_fails rm_ok)
              (mkDelivery "a" DEFAULT_QUERY (file_path_of "a") 0 0)
              (mkWorld [mkRecord "a" "report.pdf" DEFAULT_QUERY completed
                          (Some "old report") None 10 (Some 20) (Some 100)]
                       ∅ [] 0 [])
              _ eq_refl) as (r' & Hr & _ & _ & _ & _ & Hs & He & Hres).
  exists r'. split; [exact Hr|]. split; [exact Hs|]. split; [exact He | exact Hres].
Defined.

(** ** tools.py: the two clean-up loops *)

Lemma append_nil_r (s : string) : s +:+ "" = s.
Proof. apply chars_inj. rewrite chars_app. apply app_nil_r. Qed.

Lemma append_assoc (a b c : string) : (a +:+ b) +:+ c = a +:+ (b +:+ c).
Proof. apply chars_inj. rewrite !chars_app. symmetry. apply app_assoc. Qed.

Lemma length_append (a b : string) :
  String.length (a +:+ b) = (String.length a + String.length b)%nat.
Proof. rewrite !chars_length, chars_app. apply length_app. Qed.

Lemma startswith_append (sub post : string) : startswith sub (sub +:+ post) = true.
Proof. apply startswith_prefix. rewrite chars_app. apply prefix_app_r. reflexivity. Qed.

Lemma contains_append (sub pre post : string) :
  contains sub (pre +:+ (sub +:+ post)) = true.
Proof.
  induction pre as [|a pre IH].
  - change ("" +:+ (sub +:+ post)) with (sub +:+ post).
    destruct (sub +:+ post) eqn:E; simpl; rewrite <- E, startswith_append; reflexivity.
  - change (String a pre +:+ (sub +:+ post)) with (String a (pre +:+ (sub +:+ post))).
    simpl. rewrite IH. apply orb_true_r.
Qed.

Section Squeeze.
Variable c : ascii.

Lemma squeeze_cons (a : ascii) (s : string) :
  squeeze c (String a s)
  = if Ascii.eqb a c && startswith (String c "") s then squeeze c s
    else String a (squeeze c s).
Proof. reflexivity. Qed.

Lemma startswith_squeeze (s : string) :
  startswith (String c "") (squeeze c s) = startswith (String c "") s.
Proof.
  induction s as [|a s IH]; [reflexivity|]. rewrite squeeze_cons.
  destruct (Ascii.eqb a c && startswith (String c "") s) eqn:E.
  - rewrite IH. apply andb_prop in E as [Ea Es].
    apply Ascii.eqb_eq in Ea. subst a. rewrite Es.
    simpl. rewrite Ascii.eqb_refl. reflexivity.
  - reflexivity.
Qed.

Lemma contains_double_cons (a : ascii) (s : string) :
  contains (double c) (String a s)
  = (Ascii.eqb a c && startswith (String c "") s) || contains (double c) s.
Proof.
  simpl. rewrite (Ascii.eqb_sym c a).
  destruct (Ascii.eqb a c); [|reflexivity].
  destruct s as [|b s]; reflexivity.
Qed.

Lemma squeeze_no_double (s : string) : contains (double c) (squeeze c s) = false.
Proof.
  induction s as [|a s IH]; [reflexivity|]. rewrite squeeze_cons.
  destruct (Ascii.eqb a c && startswith (String c "") s) eqn:E; [exact IH|].
  rewrite contains_double_cons, startswith_squeeze, E, IH. reflexivity.
Qed.

Lemma squeeze_fixed (s : string) :
  contains (double c) s = false -> squeeze c s = s.
Proof.
  induction s as [|a s IH]; [reflexivity|].
  rewrite contains_double_cons, squeeze_cons. intros H.
  apply orb_false_elim in H as [-> H]. rewrite (IH H). reflexivity.
Qed.

Lemma squeeze_length (s : string) :
  (String.length (squeeze c s) <= String.length s)%nat.
Proof.
  induction s as [|a s IH]; [reflexivity|]. rewrite squeeze_cons.
  destruct (Ascii.eqb a c && startswith (String c "") s); simpl; lia.
Qed.

Lemma squeeze_without (s : string) : without c (squeeze c s) = without c s.
Proof.
  unfold without. induction s as [|a s IH]; [reflexivity|]. rewrite squeeze_cons.
  destruct (Ascii.eqb a c && startswith (String c "") s) eqn:E.
  - apply andb_prop in E as [Ea _]. rewrite IH.
    cbn [String.list_ascii_of_string List.filter]. rewrite Ea. reflexivity.
  - cbn [String.list_ascii_of_string List.filter]. rewrite IH. reflexivity.
Qed.

Lemma squeeze_keeps_last (s : string) :
  exists q, squeeze c (s +:+ String c "") = q +:+ String c "".
Proof.
  induction s as [|a s [q IH]].
  - exists "". change ("" +:+ String c "") with (String c "").
    rewrite squeeze_cons. cbn [startswith]. rewrite andb_false_r. reflexivity.
  - change (String a s +:+ String c "") with (String a (s +:+ String c "")).
    rewrite squeeze_cons.
    destruct (Ascii.eqb a c && startswith (String c "") (s +:+ String c "")).
    + exists q. exact IH.
    + exists (String a q). rewrite IH. reflexivity.
Qed.

(** One pass of [replace] over the doubled character. *)
Lemma replace_double_hit (s : string) :
  replace (double c) (String c "") (String c (String c s))
  = String c (replace (double c) (String c "") s).
Proof. unfold replace. simpl. rewrite !Ascii.eqb_refl. reflexivity. Qed.

Lemma replace_double_miss (a : ascii) (s : string) :
  Ascii.eqb a c && startswith (String c "") s = false ->
  replace (double c) (String c "") (String a s)
  = String a (replace (double c) (String c "") s).
Proof.
  intros H. unfold replace. simpl. rewrite (Ascii.eqb_sym c a).
  destruct (Ascii.eqb a c); [|reflexivity].
  destruct s as [|b s]; [reflexivity|].
  simpl in H. rewrite H. reflexivity.
Qed.

Lemma replace_double_facts (n : nat) :
  forall s, (String.length s <= n)%nat ->
    squeeze c (replace (double c) (String c "") s) = squeeze c s
    /\ startswith (String c "") (replace (double c) (String c "") s)
       = startswith (String c "") s
    /\ (String.length (replace (double c) (String c "") s) <= String.length s)%nat
    /\ (contains (double c) s = true ->
        (String.length (replace (double c) (String c "") s) < String.length s)%nat).
Proof.
  induction n as [|n IH]; intros s Hlen.
  - destruct s; [|simpl in Hlen; lia]. repeat split; [simpl; lia | discriminate].
  - destruct s as [|a s]; [repeat split; [simpl; lia | discriminate]|].
    simpl in Hlen.
    destruct (Ascii.eqb a c && startswith (String c "") s) eqn:E.
    + apply andb_prop in E as [Ea Es]. apply Ascii.eqb_eq in Ea. subst a.
      destruct s as [|b s]; [discriminate Es|].
      simpl in Es. destruct (Ascii.eqb c b) eqn:Eb; [|discriminate Es].
      apply Ascii.eqb_eq in Eb. subst b. simpl in Hlen.
      destruct (IH s ltac:(lia)) as (Hsq & Hst & Hle & _).
      rewrite replace_double_hit, !squeeze_cons, Hst, Hsq.
      rewrite Ascii.eqb_refl. simpl. rewrite Ascii.eqb_refl.
      repeat split; simpl; lia.
    + destruct (IH s ltac:(lia)) as (Hsq & Hst & Hle & Hlt).
      rewrite (replace_double_miss a s E), !squeeze_cons, Hst, Hsq, E.
      rewrite contains_double_cons, E.
      repeat split; simpl; [lia|]. intros Hc. apply Hlt in Hc. lia.
Qed.

End Squeeze.

Lemma newline_loop_squeezes (fuel : nat) :
  forall s, (String.length s <= fuel)%nat ->
    newline_loop fuel s = Some (squeeze "010"%char s).
Proof.
  induction fuel as [|fuel IH]; intros s Hlen.
  - destruct s; [reflexivity | simpl in Hlen; lia].
  - change (newline_loop (S fuel) s)
      with (if contains (double "010"%char) s
            then newline_loop fuel
                   (replace (double "010"%char) (String "010"%char "") s)
            else Some s).
    destruct (contains (double "010"%char) s) eqn:Hc.
    + destruct (replace_double_facts "010"%char (String.length s) s (le_n _))
        as (Hsq & _ & _ & Hlt).
      specialize (Hlt Hc). rewrite IH by lia. rewrite Hsq. reflexivity.
    + rewrite (squeeze_fixed _ s Hc). reflexivity.
Qed.

(** X16: the page clean-up of [read_data_tool].  The [while] loop ends for
    every page text, within as many passes as the text has characters; what
    it returns has no two newlines in a row, is the text with each run of
    newlines cut down to one, keeps every other character in order, is never
    longer than the text, and is the text itself when there was nothing to
    cut. *)
Theorem newline_loop_result (content : string) :
  newline_loop (String.length content) content
  = Some (squeeze "010"%char content)
  /\ contains NLNL (squeeze "010"%char content) = false
  /\ without "010"%char (squeeze "010"%char content) = without "010"%char content
  /\ (String.length (squeeze "010"%char content) <= String.length content)%nat
  /\ (contains NLNL content = false -> squeeze "010"%char content = content).
Proof.
  split; [apply newline_loop_squeezes; reflexivity|].
  split; [apply (squeeze_no_double "010"%char)|].
  split; [apply squeeze_without|].
  split; [apply squeeze_length|].
  apply (squeeze_fixed "010"%char).
Qed.

Lemma newline_loop_result_witness :
  contains NLNL ("a" +:+ NL +:+ "b") = false
  /\ squeeze "010"%char ("a" +:+ NL +:+ "b") = "a" +:+ NL +:+ "b".
Proof.
  split; [reflexivity|].
  apply (newline_loop_result ("a" +:+ NL +:+ "b")). reflexivity.
Defined.

Lemma read_pages_joins (docs : list string) (full_report : string) :
  read_pages docs full_report
  = Some (full_report +:+ join_pages (map (squeeze "010"%char) docs)).
Proof.
  revert full_report. induction docs as [|p docs IH]; intros full_report.
  - simpl. rewrite append_nil_r. reflexivity.
  - cbn [read_pages]. rewrite newline_loop_squeezes by reflexivity.
    rewrite IH. cbn [map join_pages foldr]. rewrite !append_assoc. reflexivity.
Qed.

Lemma join_pages_app (a b : list string) :
  join_pages (a ++ b) = join_pages a +:+ join_pages b.
Proof.
  induction a as [|p a IH]; [reflexivity|].
  cbn [app join_pages foldr]. fold (join_pages (a ++ b)) (join_pages a).
  rewrite IH, !append_assoc. reflexivity.
Qed.

(** X17: the report of [read_data_tool].  For every list of page texts the
    tool returns a report: the cleaned pages in order, each followed by one
    newline, so that reading two batches of pages gives the two reports one
    after the other.  The clean-up is per page: a page that ends in a newline
    still leaves a blank line in the report, where the separator follows
    it. *)
Theorem read_data_tool_report (docs : list string) :
  read_data_tool docs = Some (join_pages (map (squeeze "010"%char) docs))
  /\ (forall docs',
        join_pages (map (squeeze "010"%char) (docs ++ docs'))
        = join_pages (map (squeeze "010"%char) docs)
          +:+ join_pages (map (squeeze "010"%char) docs'))
  /\ (forall page, page ∈ docs -> endswith page NL = true ->
        contains NLNL (join_pages (map (squeeze "010"%char) docs)) = true).
Proof.
  split; [apply (read_pages_joins docs "")|]. split.
  - intros docs'. rewrite map_app. apply join_pages_app.
  - intros page Hin Hend.
    apply list_elem_of_split in Hin as (pre & post & ->).
    apply endswith_suffix in Hend as [k Hk].
    assert (Hpage : page = String.string_of_list_ascii k +:+ NL).
    { apply chars_inj. rewrite chars_app. unfold chars at 2.
      rewrite String.list_ascii_of_string_of_list_ascii. exact Hk. }
    destruct (squeeze_keeps_last "010"%char (String.string_of_list_ascii k))
      as [q Hq].
    rewrite map_app, join_pages_app. cbn [map join_pages foldr].
    rewrite Hpage. change NL with (String "010"%char "") at 1. rewrite Hq.
    fold (join_pages (map (squeeze "010"%char) post)).
    change (String "010"%char "") with NL.
    rewrite !append_assoc.
    replace (q +:+ NL +:+ NL +:+ join_pages (map (squeeze "010"%char) post))
      with (q +:+ (NLNL +:+ join_pages (map (squeeze "010"%char) post)))
      by reflexivity.
    rewrite <- append_assoc. apply contains_append.
Qed.

Lemma read_data_tool_report_witness :
  let docs := ["Revenue" +:+ NL; "Costs"] in
  ("Revenue" +:+ NL) ∈ docs
  /\ endswith ("Revenue" +:+ NL) NL = true
  /\ contains NLNL (join_pages (map (squeeze "010"%char) docs)) = true.
Proof.
  split; [apply list_elem_of_here|]. split; [reflexivity|].
  apply (proj2 (proj2 (read_data_tool_report ["Revenue" +:+ NL; "Costs"]))
           ("Revenue" +:+ NL));
    [apply list_elem_of_here | reflexivity].
Defined.

Lemma str_take_append (pre suf : string) :
  str_take (String.length pre) (pre +:+ suf) = pre.
Proof.
  induction pre as [|a pre IH]; [destruct suf; reflexivity|].
  change (String a pre +:+ suf) with (String a (pre +:+ suf)).
  simpl. rewrite IH. reflexivity.
Qed.

Lemma str_drop_append (pre suf : string) :
  str_drop (String.length pre) (pre +:+ suf) = suf.
Proof.
  induction pre as [|a pre IH]; [destruct suf; reflexivity|].
  change (String a pre +:+ suf) with (String a (pre +:+ suf)).
  simpl. exact IH.
Qed.

Lemma str_drop_append_1 (pre : string) (a : ascii) (suf : string) :
  str_drop (String.length pre + 1) (pre +:+ String a suf) = suf.
Proof.
  induction pre as [|b pre IH]; [reflexivity|].
  change (String b pre +:+ String a suf) with (String b (pre +:+ String a suf)).
  simpl. exact IH.
Qed.

Lemma take_2_is_double (a : ascii) (s : string) :
  String.eqb (str_take 2 (String a s)) SP2
  = Ascii.eqb a " "%char && startswith (String " "%char "") s.
Proof.
  destruct s as [|b s]; cbn [str_take startswith].
  - destruct (String.eqb_spec (String a "") SP2) as [H|H]; [discriminate H|].
    rewrite andb_false_r. reflexivity.
  - destruct (String.eqb_spec (String a (String b "")) SP2) as [H|H].
    + injection H as -> ->. reflexivity.
    + destruct (Ascii.eqb_spec a " "%char) as [->|Ha]; [|reflexivity].
      destruct (Ascii.eqb_spec " "%char b) as [<-|Hb]; [|reflexivity].
      contradiction H. reflexivity.
Qed.

Lemma investment_loop_squeezes (fuel : nat) :
  forall pre suf,
    (String.length suf <= fuel)%nat ->
    investment_loop fuel (String.length pre) (pre +:+ suf)
    = Some (pre +:+ squeeze " "%char suf).
Proof.
  induction fuel as [|fuel IH]; intros pre suf Hlen.
  - destruct suf; [|simpl in Hlen; lia].
    cbn [investment_loop squeeze]. rewrite !append_nil_r, Nat.ltb_irrefl. reflexivity.
  - destruct suf as [|a suf].
    + cbn [investment_loop squeeze]. rewrite !append_nil_r, Nat.ltb_irrefl. reflexivity.
    + simpl in Hlen. cbn [investment_loop].
      assert (Hlt : (String.length pre <? String.length (pre +:+ String a suf))%nat
                    = true).
      { apply Nat.ltb_lt. rewrite length_append. simpl. lia. }
      rewrite Hlt, str_drop_append, take_2_is_double, squeeze_cons.
      destruct (Ascii.eqb a " "%char && startswith (String " "%char "") suf).
      * rewrite str_take_append, str_drop_append_1. apply IH. lia.
      * replace (pre +:+ String a suf) with ((pre +:+ String a "") +:+ suf)
          by (rewrite append_assoc; reflexivity).
        replace (String.length pre + 1)%nat
          with (String.length (pre +:+ String a ""))
          by (rewrite length_append; reflexivity).
        rewrite IH by lia. rewrite append_assoc. reflexivity.
Qed.

(** X18: the clean-up of [analyze_investment_tool].  The index loop ends for
    every input, within as many steps as the input has characters; what it
    returns has no two spaces in a row, is the input with each run of spaces
    cut down to one, keeps every other character in order, is never longer
    than the input, and is the input itself when there was nothing to cut. *)
Theorem analyze_investment_tool_result (data : string) :
  analyze_investment_tool data = Some (squeeze " "%char data)
  /\ contains SP2 (squeeze " "%char data) = false
  /\ without " "%char (squeeze " "%char data) = without " "%char data
  /\ (String.length (squeeze " "%char data) <= String.length data)%nat
  /\ (contains SP2 data = false -> squeeze " "%char data = data).
Proof.
  split; [apply (investment_loop_squeezes (String.length data) "" data (le_n _))|].
  split; [apply (squeeze_no_double " "%char)|].
  split; [apply squeeze_without|].
  split; [apply squeeze_length|].
  apply (squeeze_fixed " "%char).
Qed.

Lemma analyze_investment_tool_result_witness :
  contains SP2 "net income" = false
  /\ squeeze " "%char "net income" = "net income".
Proof.
  split; [reflexivity|].
  apply (analyze_investment_tool_result "net income"). reflexivity.
Defined.

(** The two tools, run. *)
Example read_data_tool_run :
  read_data_tool ["Q1" +:+ NL +:+ NL +:+ NL +:+ "Revenue"; "Costs" +:+ NL]
  = Some ("Q1" +:+ NL +:+ "Revenue" +:+ NL +:+ "Costs" +:+ NL +:+ NL).
Proof. reflexivity. Qed.

Example analyze_investment_tool_run :
  analyze_investment_tool "net   income  up" = Some "net income up".
Proof. reflexivity. Qed.

(** ** Two more invariants of the handlers *)


Lemma commit_update_fs (j : string) (f : AnalysisRecord -> AnalysisRecord)
    (w : World) :
  fs (commit_update j f w) = fs w.
Proof. unfold commit_update. destruct (db_get j (store w)); reflexivity. Qed.






Lemma cleanup_fs_other e i n p (f : gmap string string) (p' : string) :
  p' <> p -> cleanup_fs e i n p f !! p' = f !! p'.
Proof.
  intros Hne. unfold cleanup_fs. destruct (f !! p); [|reflexivity].
  destruct (remove_ok e i n); [|reflexivity].
  apply lookup_delete_ne. congruence.
Qed.

(** X20: each handler touches one file only.  A sync or an async submission
    leaves every path other than the one derived from the id it drew as it
    was, and the worker task leaves every path other than the one in its
    delivery as it was - present with the same content, or absent. *)
Theorem other_files_untouched (e : Env) (file_name content qry p : string)
    (d : Delivery) (w : World) :
  (p <> file_path_of (uuid4 e) ->
   fs (snd (analyze_document e file_name content qry w)) !! p = fs w !! p
   /\ fs (snd (analyze_document_async e file_name content qry w)) !! p = fs w !! p)
  /\ (p <> d_file_path d ->
      fs (snd (analyze_document_task e d w)) !! p = fs w !! p).
Proof.
  split.
  - intros Hne. split.
    + unfold analyze_document. destruct (is_pdf file_name); [|reflexivity].
      unfold sync_try. destruct (write_err e) as [exc|].
      * cbn -[cleanup]. rewrite cleanup_fs_eq, cleanup_fs_other by exact Hne.
        unfold sync_except.
        destruct (db_get (uuid4 e) (store w)); [|reflexivity].
        cbn -[commit_update]. rewrite commit_update_fs. reflexivity.
      * cbn -[cleanup commit_update db_add]. unfold db_add.
        cbn -[cleanup commit_update].
        destruct (db_get (uuid4 e) (store w)) as [r0|] eqn:Hget.
        -- cbn -[cleanup commit_update].
           rewrite cleanup_fs_eq, cleanup_fs_other by exact Hne. cbn.
           apply lookup_insert_ne. congruence.
        -- destruct (kickoff e (uuid4 e) 0) as [res|exc];
             cbn -[cleanup commit_update];
             rewrite cleanup_fs_eq, cleanup_fs_other by exact Hne.
           ++ rewrite commit_update_fs. cbn. apply lookup_insert_ne. congruence.
           ++ match goal with
              | |- context [match ?x with Some _ => _ | None => _ end] => destruct x
              end; rewrite ?commit_update_fs; cbn;
                apply lookup_insert_ne; congruence.
    + unfold analyze_document_async.
      destruct (worker_importable e); [|reflexivity].
      destruct (is_pdf file_name); [|reflexivity].
      destruct (write_err e); [reflexivity|].
      unfold db_add. cbn.
      destruct (db_get (uuid4 e) (store w)); cbn;
        [|destruct (broker_err e); cbn]; apply lookup_insert_ne; congruence.
  - intros Hne.
    assert (Hfs : fs (snd (analyze_document_task e d w))
                  = cleanup_fs e (d_task_id d) (d_retries d) (d_file_path d) (fs w)).
    { destruct (db_get (d_task_id d) (store w)) as [r|] eqn:Hrow.
      - destruct (kickoff e (d_task_id d) (d_retries d)) as [res|exc] eqn:Hk.
        + pose proof (task_found_ok e d w r Hrow res Hk) as H. cbv zeta in H.
          destruct (analyze_document_task e d w) as [out w'].
          destruct H as (_ & _ & _ & _ & _ & Hfs & _). exact Hfs.
        + pose proof (task_found_fail e d w r Hrow exc Hk) as H. cbv zeta in H.
          destruct (analyze_document_task e d w) as [out w'].
          destruct H as (_ & _ & _ & Hfs & _). exact Hfs.
      - pose proof (task_absent e d w Hrow) as H.
        destruct (analyze_document_task e d w) as [out w'].
        destruct H as (_ & Hfs & _). exact Hfs. }
    rewrite Hfs. apply cleanup_fs_other, Hne.
Qed.

Lemma other_files_untouched_witness :
  "data/sample.pdf" <> file_path_of "j1"
  /\ fs (snd (analyze_document (demo_env true None crew_ok rm_ok)
                "report.pdf" "%PDF-1.4" ""
                (mkWorld [] {[ "data/sample.pdf" := "kept" ]} [] 0 [])))
       !! "data/sample.pdf" = Some "kept".
Proof.
  split; [discriminate|].
  destruct (other_files_untouched (demo_env true None crew_ok rm_ok)
              "report.pdf" "%PDF-1.4" "" "data/sample.pdf"
              (mkDelivery "j1" "" (file_path_of "j1") 0 0)
              (mkWorld [] {[ "data/sample.pdf" := "kept" ]} [] 0 [])) as [H _].
  destruct (H ltac:(discriminate)) as [Hsync _].
  rewrite Hsync. reflexivity.
Defined.

Lemma is_pdf_iff_witness :
  is_pdf "Report.PDF" = true
  /\ exists stem ext, "Report.PDF" = stem +:+ ext /\ lower ext = ".pdf".
Proof.
  split; [reflexivity|]. apply (proj1 (is_pdf_iff "Report.PDF")). reflexivity.
Defined.

(** ** More on the history list, the invariant of a row and a taken id *)

(** X21: the history for a limit that is not negative.  The request is
    answered with a list whose total is its length; the records are the
    [min(limit, 100)] most recent of the rows that the filter selects (all of
    them when there are no more than that), most recent first: together with
    the rows left out they make up the selected rows, and no row left out is
    more recent than a record returned. *)
Theorem history_most_recent_up_to_cap (limit : Z) (st : option string)
    (s : Store) :
  0 <= limit ->
  exists records rest,
    get_analysis_history limit st s
    = HistoryOk (Z.of_nat (length records)) records
    /\ StronglySorted summary_newer_first records
    /\ length records
       = Nat.min (Z.to_nat (Z.min limit 100)) (length (selected st s))
    /\ Z.of_nat (length records) <= Z.min limit 100
    /\ (records ++ rest)%list ≡ₚ map summary_of (selected st s)
    /\ (forall a b, a ∈ records -> b ∈ rest -> s_created_at b <= s_created_at a)
    /\ (Z.of_nat (length (selected st s)) <= Z.min limit 100 -> rest = []).
Proof.
  intros Hpos.
  set (sorted := order_by_created_at_desc (selected st s)).
  set (n := Z.to_nat (Z.min limit 100)).
  assert (Hlen : length sorted = length (selected st s))
    by apply Permutation_length, order_by_perm.
  assert (Hsorted : StronglySorted summary_newer_first (map summary_of sorted)).
  { apply StronglySorted_fmap with (R1 := newer_first).
    - intros a b Hab. exact Hab.
    - apply order_by_sorted. }
  exists (map summary_of (take n sorted)), (map summary_of (drop n sorted)).
  assert (Hl : length (map summary_of (take n sorted))
               = Nat.min n (length (selected st s)))
    by (rewrite length_map, length_take, Hlen; reflexivity).
  split; [|split; [|split; [|split; [|split; [|split]]]]].
  - rewrite history_reply. cbv zeta. rewrite cap_overflow.
    assert (Hge : (limit <? INT64_MIN) = false)
      by (apply Z.ltb_ge; unfold INT64_MIN; lia).
    assert (Hcap : (Z.min limit 100 <? 0) = false) by (apply Z.ltb_ge; lia).
    rewrite Hge, Hcap. fold sorted n. rewrite length_map. reflexivity.
  - rewrite <- (take_drop n sorted), fmap_app in Hsorted.
    eapply StronglySorted_app_1_l. exact Hsorted.
  - exact Hl.
  - rewrite Hl. subst n. lia.
  - rewrite <- fmap_app, take_drop. apply fmap_Permutation, order_by_perm.
  - intros a b Ha Hb.
    rewrite <- (take_drop n sorted), fmap_app in Hsorted.
    apply (StronglySorted_app_1_elem_of _ _ _ _ _ Hsorted Ha Hb).
  - intros Hfit. rewrite drop_ge by (rewrite Hlen; subst n; lia). reflexivity.
Qed.

Lemma history_most_recent_up_to_cap_witness :
  0 <= 5
  /\ exists records,
       get_analysis_history 5 None three_jobs = HistoryOk 3 records
       /\ StronglySorted summary_newer_first records.
Proof.
  split; [lia|].
  destruct (history_most_recent_up_to_cap 5 None three_jobs ltac:(lia))
    as (records & rest & Hreply & Hs & Hlen & _).
  exists records. split; [|exact Hs].
  rewrite Hreply, Hlen. reflexivity.
Defined.

(** X22: the invariant of a row holds of every write before a retry.  For a
    submission that draws a fresh id, every row the sync endpoint writes,
    every row async submission writes and every row the first worker attempt
    writes has exactly one of result and error set when its status is
    completed or failed, and neither when it is queued or processing. *)
Theorem first_writes_keep_record_invariant (e : Env)
    (file_name content qry : string) (w : World) :
  db_get (uuid4 e) (store w) = None ->
  queue w = [] ->
  Forall record_inv
    (commits (events_since w
                (snd (analyze_document e file_name content qry w))))
  /\
  let w1 := snd (analyze_document_async e file_name content qry w) in
  Forall record_inv (commits (events_since w w1))
  /\ forall d q,
       queue w1 = d :: q ->
       Forall record_inv
         (commits (events_since w1
                     (snd (analyze_document_task e d (set_queue q w1))))).
Proof.
  intros Hfresh Hq. split.
  - destruct (is_pdf file_name) eqn:Hpdf.
    + pose proof (sync_fresh e file_name content qry w Hpdf Hfresh) as H.
      destruct (analyze_document e file_name content qry w) as [resp w1].
      destruct H as (_ & H). simpl.
      destruct (write_err e) as [exc|].
      * destruct H as (_ & _ & _ & Hlog).
        rewrite (events_since_app _ _ _ Hlog), commits_cleanup. constructor.
      * destruct H as (_ & H).
        destruct (kickoff e (uuid4 e) 0) as [res|exc];
          destruct H as (_ & _ & Hlog);
          rewrite (events_since_app _ _ _ Hlog), commits_app, commits_cleanup;
          simpl; repeat constructor.
    + unfold analyze_document. rewrite Hpdf. simpl.
      rewrite events_since_refl. constructor.
  - assert (Hrej : snd (analyze_document_async e file_name content qry w) = w ->
                   let w1 := snd (analyze_document_async e file_name content qry w) in
                   Forall record_inv (commits (events_since w w1))
                   /\ forall d q, queue w1 = d :: q ->
                        Forall record_inv
                          (commits (events_since w1
                             (snd (analyze_document_task e d (set_queue q w1)))))).
    { intros ->. cbv zeta. rewrite events_since_refl. split; [constructor|].
      intros d q Hd. congruence. }
    destruct (worker_importable e) eqn:Himp;
      [|apply Hrej; unfold analyze_document_async; rewrite Himp; reflexivity].
    destruct (is_pdf file_name) eqn:Hpdf;
      [|apply Hrej; unfold analyze_document_async; rewrite Himp, Hpdf; reflexivity].
    destruct (write_err e) as [exc|] eqn:Hwr;
      [apply Hrej; unfold analyze_document_async;
       rewrite Himp, Hpdf, Hwr; reflexivity|].
    clear Hrej.
    destruct (broker_err e) as [exc|] eqn:Hbr.
    + pose proof (async_fresh e file_name content qry w Himp Hpdf Hwr Hfresh) as H.
      cbv zeta in H.
      destruct (analyze_document_async e file_name content qry w) as [resp w1].
      rewrite Hbr, Hq in H. destruct H as (_ & _ & _ & Hq1 & Hlog). simpl.
      split; [rewrite (events_since_app _ _ _ Hlog); simpl; repeat constructor|].
      intros d q Hd. congruence.
    + pose proof (async_then_worker e file_name content qry w
                    Hfresh Hq Himp Hpdf Hwr Hbr) as H.
      cbv zeta in H. cbv zeta.
      set (w1 := snd (analyze_document_async e file_name content qry w)) in *.
      destruct H as (Hst & Hlog & Hq1 & _).
      assert (Hrow : db_get (uuid4 e) (store w1)
                     = Some (mkRecord (uuid4 e) file_name (normalize_query qry)
                               queued None None (clock e (ticks w)) None None)).
      { rewrite Hst.
        apply (db_get_app_fresh (mkRecord _ _ _ _ _ _ _ _ _)). exact Hfresh. }
      split; [rewrite (events_since_app _ _ _ Hlog); simpl; repeat constructor|].
      intros d q Hd. rewrite Hq1 in Hd. injection Hd as <- <-.
      apply (first_attempt_writes e
               (mkDelivery (uuid4 e) (normalize_query qry)
                  (file_path_of (uuid4 e)) 0 0)
               (set_queue [] w1) _ Hrow); reflexivity.
Qed.

Lemma first_writes_keep_record_invariant_witness :
  let e := demo_env true None crew_fails rm_ok in
  (db_get (uuid4 e) (store empty_world) = None /\ queue empty_world = [])
  /\ Forall record_inv
       (commits (events_since empty_world
                   (snd (analyze_document e "report.pdf" "%PDF-1.4" ""
                           empty_world)))).
Proof.
  split; [split; reflexivity|].
  apply (first_writes_keep_record_invariant
           (demo_env true None crew_fails rm_ok)
           "report.pdf" "%PDF-1.4" "" empty_world); reflexivity.
Defined.

(** X23: a sync submission whose drawn id already has a row.  The upload is
    written, the insert is refused, and the query of the exception handler
    then fails on the session that was not rolled back: that exception is
    what leaves the endpoint, not the 500 the handler builds.  No row is
    written or changed, the crew is not run, nothing is queued, and the
    upload is removed as on every other exit. *)
Theorem sync_taken_id (e : Env) (file_name content qry : string) (w : World)
    (r : AnalysisRecord) :
  is_pdf file_name = true ->
  write_err e = None ->
  db_get (uuid4 e) (store w) = Some r ->
  let path := file_path_of (uuid4 e) in
  let '(resp, w') := analyze_document e file_name content qry w in
  resp = Unhandled PENDING_ROLLBACK_ERROR
  /\ store w' = store w
  /\ queue w' = queue w
  /\ commits (events_since w w') = []
  /\ kickoffs (events_since w w') = []
  /\ fs w' = cleanup_fs e (uuid4 e) 0 path (<[path := content]> (fs w)).
Proof.
  intros Hpdf Hwr Hrow path.
  unfold analyze_document, sync_try, sync_except.
  rewrite Hpdf, Hwr. cbn -[cleanup]. unfold db_add. cbn -[cleanup].
  rewrite Hrow. cbn -[cleanup].
  rewrite cleanup_store, cleanup_queue, cleanup_fs_eq.
  assert (Hlog : log (cleanup e (uuid4 e) 0 (file_path_of (uuid4 e))
                   {| store := store w;
                      fs := <[file_path_of (uuid4 e) := content]> (fs w);
                      queue := queue w;
                      ticks := S (S (ticks w));
                      log := (log w ++ [EvWriteFile (file_path_of (uuid4 e))])%list |})
                 = (log w ++ EvWriteFile (file_path_of (uuid4 e))
                       :: cleanup_events e (uuid4 e) 0 (file_path_of (uuid4 e))
                            (<[file_path_of (uuid4 e) := content]> (fs w)))%list).
  { rewrite cleanup_log. cbn. rewrite <- app_assoc. reflexivity. }
  rewrite (events_since_app _ _ _ Hlog).
  repeat split.
  - change (commits ([EvWriteFile (file_path_of (uuid4 e))]
              ++ cleanup_events e (uuid4 e) 0 (file_path_of (uuid4 e))
                   (<[file_path_of (uuid4 e) := content]> (fs w))) = []).
    rewrite commits_app, commits_cleanup. reflexivity.
  - unfold kickoffs, cleanup_events. cbn.
    destruct (_ !! _); reflexivity.
Qed.

Lemma sync_taken_id_witness :
  let e := demo_env true None crew_ok rm_ok in
  let w := mkWorld [job_at "j1" completed 5] ∅ [] 0 [] in
  (is_pdf "report.pdf" = true
   /\ write_err e = None
   /\ db_get (uuid4 e) (store w) = Some (job_at "j1" completed 5))
  /\ fst (analyze_document e "report.pdf" "%PDF-1.4" "" w)
     = Unhandled PENDING_ROLLBACK_ERROR.
Proof.
  split; [repeat split|].
  pose proof (sync_taken_id (demo_env true None crew_ok rm_ok)
                "report.pdf" "%PDF-1.4" ""
                (mkWorld [job_at "j1" completed 5] ∅ [] 0 [])
                (job_at "j1" completed 5) eq_refl eq_refl eq_refl) as H.
  cbv zeta in H.
  destruct (analyze_document (demo_env true None crew_ok rm_ok)
              "report.pdf" "%PDF-1.4" ""
              (mkWorld [job_at "j1" completed 5] ∅ [] 0 [])) as [resp w'].
  destruct H as (-> & _). reflexivity.
Defined.
